(** * Offscreen multi-pass rendering in the Vulkan examples

    A shallow embedding of the command-buffer recording code of five
    examples and of the properties of the frame sequences they record:
    - [Bloom]: "Bloom (offscreen rendering)", the example class that follows
      vkx::Compute in base/vkx/compute.hpp;
    - [ShadowMapping]: "Projected shadow mapping" with optional PCF filtering;
    - [PbrBasic]: "Physical based shading basics";
    - [Screenshot]: examples/screenshot/screenshot.cpp;
    - [OffscreenShadowMapping]: examples/offscreen/shadowmapping.cpp, which
      records its offscreen pass into a command buffer of its own.

    State is passed explicitly; a call that can fail returns a [Result].  A
    Vulkan object is identified by the member of the example that holds its
    handle: distinct members hold distinct objects. *)

From Stdlib Require Import ZArith QArith Lia Bool.
From stdpp Require Import base tactics option list strings.

Local Open Scope Z_scope.

(** ** Results of device calls and the error discipline *)

(** [VkResult] is the C enum; only [VK_SUCCESS] is told apart from the rest. *)
Definition VkResult := Z.
Definition VK_SUCCESS : VkResult := 0.
Definition VK_ERROR_OUT_OF_HOST_MEMORY : VkResult := -1.
Definition VK_ERROR_OUT_OF_POOL_MEMORY : VkResult := -1000069000.

(** Modelled from the spec: the two error classes of section 7.  The code
    itself only ever stops on a failed device call (through VK_CHECK_RESULT);
    indexing a std::vector out of range has no defined behaviour in C++ and
    is kept apart as [UndefinedBehaviour]. *)
Inductive Error :=
  | DeviceError (res : VkResult)
  | ConfigurationError
  | UndefinedBehaviour.

Inductive Result (A : Type) :=
  | Ok (a : A)
  | Err (e : Error).
Arguments Ok {A} a.
Arguments Err {A} e.

Definition bind {A B} (m : Result A) (k : A -> Result B) : Result B :=
  match m with
  | Ok a => k a
  | Err e => Err e
  end.

Notation "'let*' x := m 'in' k" := (bind m (fun x => k))
  (at level 10, x name, m at level 100, k at level 200, only parsing).
Notation "'check' m 'in' k" := (bind m (fun _ => k))
  (at level 10, m at level 100, k at level 200, only parsing).

(** Modelled from the spec: VK_CHECK_RESULT is a macro of the example base,
    whose definition is not among the sources; by section 7 a device error,
    that is a result other than VK_SUCCESS, is fatal. *)
Definition VK_CHECK_RESULT (res : VkResult) : Result unit :=
  if res =? VK_SUCCESS then Ok tt else Err (DeviceError res).

(** [v[i]] on a std::vector with a signed index. *)
Definition vector_at {A} (v : list A) (i : Z) : Result A :=
  if i <? 0 then Err UndefinedBehaviour
  else match v !! Z.to_nat i with
       | Some a => Ok a
       | None => Err UndefinedBehaviour
       end.

(** ** Floating point and glm

    Single-precision arithmetic and the glm matrix functions are external to
    the examples; they are taken as an interface without laws. *)
Class FloatOps := {
  float : Type;
  fconst : Q -> float;
  fofint : Z -> float;
  fadd : float -> float -> float;
  fsub : float -> float -> float;
  fmul : float -> float -> float;
  fdiv : float -> float -> float;
  fneg : float -> float;
  fsin : float -> float;
  fcos : float -> float;
  radians : float -> float;
  clamp : float -> float -> float -> float;
  mat4 : Type;
  mat4_diag : float -> mat4;
  mat4_of_mat3 : mat4 -> mat4;
  mat4_mul : mat4 -> mat4 -> mat4;
  glm_translate : mat4 -> float * float * float -> mat4;
  glm_rotate : mat4 -> float -> float * float * float -> mat4;
  glm_perspective : float -> float -> float -> float -> mat4;
  glm_ortho : float -> float -> float -> float -> float -> float -> mat4;
  glm_lookAt : float * float * float -> float * float * float
               -> float * float * float -> mat4;
}.

(** glm::vec3 and glm::vec4 are tuples of floats. *)
Definition vec3 {F : FloatOps} : Type := (float * float * float)%type.
Definition vec4 {F : FloatOps} : Type := (float * float * float * float)%type.

Definition vec3_add {F : FloatOps} (a b : vec3) : vec3 :=
  let '(ax, ay, az) := a in
  let '(bx, by_, bz) := b in
  (fadd ax bx, fadd ay by_, fadd az bz).

Definition vec3_scale {F : FloatOps} (a : vec3) (k : float) : vec3 :=
  let '(ax, ay, az) := a in (fmul ax k, fmul ay k, fmul az k).

(** The camera of the example base, reduced to the members the examples
    read; its class is not among the sources. *)
Record Camera {F : FloatOps} := {
  matrices_perspective : mat4;
  matrices_view : mat4;
  position : vec3;
  updated : bool;
}.

(** ** Vulkan constants used by the examples (values of vulkan_core.h) *)

Inductive VkImageLayout :=
  | VK_IMAGE_LAYOUT_UNDEFINED
  | VK_IMAGE_LAYOUT_GENERAL
  | VK_IMAGE_LAYOUT_COLOR_ATTACHMENT_OPTIMAL
  | VK_IMAGE_LAYOUT_DEPTH_STENCIL_ATTACHMENT_OPTIMAL
  | VK_IMAGE_LAYOUT_DEPTH_STENCIL_READ_ONLY_OPTIMAL
  | VK_IMAGE_LAYOUT_SHADER_READ_ONLY_OPTIMAL
  | VK_IMAGE_LAYOUT_TRANSFER_SRC_OPTIMAL
  | VK_IMAGE_LAYOUT_TRANSFER_DST_OPTIMAL
  | VK_IMAGE_LAYOUT_PRESENT_SRC_KHR.

#[global] Instance VkImageLayout_eq_dec : EqDecision VkImageLayout.
Proof. solve_decision. Defined.

Inductive VkAttachmentLoadOp :=
  | VK_ATTACHMENT_LOAD_OP_LOAD
  | VK_ATTACHMENT_LOAD_OP_CLEAR
  | VK_ATTACHMENT_LOAD_OP_DONT_CARE.

Inductive VkAttachmentStoreOp :=
  | VK_ATTACHMENT_STORE_OP_STORE
  | VK_ATTACHMENT_STORE_OP_DONT_CARE.

Inductive VkDescriptorType :=
  | eUniformBuffer
  | eCombinedImageSampler.

Definition VkFormat := Z.
Definition VK_FORMAT_R8G8B8A8_UNORM : VkFormat := 37.
Definition VK_FORMAT_D16_UNORM : VkFormat := 124.

Definition VK_SUBPASS_EXTERNAL : Z := 4294967295.
Definition VK_PIPELINE_STAGE_FRAGMENT_SHADER_BIT : Z := 128.
Definition VK_PIPELINE_STAGE_EARLY_FRAGMENT_TESTS_BIT : Z := 256.
Definition VK_PIPELINE_STAGE_LATE_FRAGMENT_TESTS_BIT : Z := 512.
Definition VK_PIPELINE_STAGE_COLOR_ATTACHMENT_OUTPUT_BIT : Z := 1024.
Definition VK_ACCESS_SHADER_READ_BIT : Z := 32.
Definition VK_ACCESS_COLOR_ATTACHMENT_WRITE_BIT : Z := 256.
Definition VK_ACCESS_DEPTH_STENCIL_ATTACHMENT_WRITE_BIT : Z := 1024.
Definition VK_DEPENDENCY_BY_REGION_BIT : Z := 1.
Definition VK_SHADER_STAGE_VERTEX_BIT : Z := 1.
Definition VK_SHADER_STAGE_FRAGMENT_BIT : Z := 16.
Definition VK_SAMPLE_COUNT_1_BIT : Z := 1.

Inductive VkIndexType := VK_INDEX_TYPE_UINT16 | VK_INDEX_TYPE_UINT32.

(** ** Render pass descriptions *)

Record AttachmentDescription := {
  format : VkFormat;
  samples : Z;
  loadOp : VkAttachmentLoadOp;
  storeOp : VkAttachmentStoreOp;
  stencilLoadOp : VkAttachmentLoadOp;
  stencilStoreOp : VkAttachmentStoreOp;
  initialLayout : VkImageLayout;
  finalLayout : VkImageLayout;
}.

Record AttachmentReference := {
  attachment : nat;
  layout : VkImageLayout;
}.

Record SubpassDescription := {
  pColorAttachments : list AttachmentReference;
  pDepthStencilAttachment : option AttachmentReference;
}.

Record SubpassDependency := {
  srcSubpass : Z;
  dstSubpass : Z;
  srcStageMask : Z;
  dstStageMask : Z;
  srcAccessMask : Z;
  dstAccessMask : Z;
  dependencyFlags : Z;
}.

Record RenderPassCreateInfo := {
  pAttachments : list AttachmentDescription;
  pSubpasses : list SubpassDescription;
  pDependencies : list SubpassDependency;
}.

(** A buffer handle, and a loaded model (vkx::model::Model). *)
Definition VkBuffer := Z.

Record Model := {
  vertices_buffer : VkBuffer;
  indices_buffer : VkBuffer;
  indexCount : Z;
}.

(** ** Recorded commands

    The objects an example creates are identified by the member that holds
    their handle; each example supplies its own names. *)
Record Handles := {
  hUniformBuffer : Type;
  hPipeline : Type;
  hPipelineLayout : Type;
  hDescriptorSet : Type;
  hRenderPass : Type;
  hFramebuffer : Type;
  hImage : Type;
}.

(** A combined image sampler as written into a descriptor set. *)
Record DescriptorImageInfo (H : Handles) := {
  imageView : hImage H;
  imageLayout : VkImageLayout;
}.
Arguments imageView {H}.
Arguments imageLayout {H}.
Arguments Build_DescriptorImageInfo {H}.

Record WriteDescriptorSet (H : Handles) := {
  dstSet : hDescriptorSet H;
  descriptorType : VkDescriptorType;
  dstBinding : Z;
  pBufferInfo : option (hUniformBuffer H);
  pImageInfo : option (DescriptorImageInfo H);
}.
Arguments dstSet {H}.
Arguments descriptorType {H}.
Arguments dstBinding {H}.
Arguments pBufferInfo {H}.
Arguments pImageInfo {H}.
Arguments Build_WriteDescriptorSet {H}.

(** The device calls that can fail, as an oracle for their results. *)
Record Device (H : Handles) := {
  vkBeginCommandBuffer : nat -> VkResult;
  vkEndCommandBuffer : nat -> VkResult;
  vkAllocateDescriptorSets : hDescriptorSet H -> VkResult;
  vkQueueSubmit : Z -> VkResult;
}.
Arguments vkBeginCommandBuffer {H}.
Arguments vkEndCommandBuffer {H}.
Arguments vkAllocateDescriptorSets {H}.
Arguments vkQueueSubmit {H}.

Definition device_ok {H : Handles} (dev : Device H) : Prop :=
  (forall i, vkBeginCommandBuffer dev i = VK_SUCCESS) /\
  (forall i, vkEndCommandBuffer dev i = VK_SUCCESS) /\
  (forall s, vkAllocateDescriptorSets dev s = VK_SUCCESS) /\
  (forall b, vkQueueSubmit dev b = VK_SUCCESS).

Definition okDevice (H : Handles) : Device H :=
  {| vkBeginCommandBuffer := fun _ => VK_SUCCESS;
     vkEndCommandBuffer := fun _ => VK_SUCCESS;
     vkAllocateDescriptorSets := fun _ => VK_SUCCESS;
     vkQueueSubmit := fun _ => VK_SUCCESS |}.

(** The loop [for (i = 0; i < n; ++i)] over the draw command buffers. *)
Fixpoint for_range {A} (i n : nat) (body : nat -> Result A) : Result (list A) :=
  match n with
  | O => Ok []
  | S n' =>
      let* a := body i in
      let* rest := for_range (S i) n' body in
      Ok (a :: rest)
  end.

Section Commands.
Context {F : FloatOps}.
Variable H : Handles.

Inductive ClearValue :=
  | ClearColor (r g b a : float)
  | ClearDepthStencil (depth : float) (stencil : Z).

Record Viewport := {
  vp_width : float;
  vp_height : float;
  minDepth : float;
  maxDepth : float;
}.

Record Rect2D := {
  extent_width : Z;
  extent_height : Z;
  offset_x : Z;
  offset_y : Z;
}.

Record RenderPassBeginInfo := {
  renderPass : hRenderPass H;
  framebuffer : hFramebuffer H;
  renderArea : Rect2D;
  pClearValues : list ClearValue;
}.

Inductive Cmd :=
  | vkCmdBeginRenderPass (info : RenderPassBeginInfo)
  | vkCmdEndRenderPass
  | vkCmdSetViewport (firstViewport : Z) (viewports : list Viewport)
  | vkCmdSetScissor (firstScissor : Z) (scissors : list Rect2D)
  | vkCmdSetDepthBias (constantFactor clampv slopeFactor : float)
  | vkCmdBindDescriptorSets (layout : hPipelineLayout H) (firstSet : Z)
      (sets : list (hDescriptorSet H))
  | vkCmdBindPipeline (pipeline : hPipeline H)
  | vkCmdBindVertexBuffers (firstBinding : Z) (buffers : list VkBuffer)
      (offsets : list Z)
  | vkCmdBindIndexBuffer (buffer : VkBuffer) (offset : Z) (indexType : VkIndexType)
  | vkCmdDrawIndexed (indexCount instanceCount firstIndex vertexOffset firstInstance : Z)
  | vkCmdDraw (vertexCount instanceCount firstVertex firstInstance : Z)
  | vkCmdPushConstants (layout : hPipelineLayout H) (stageFlags : Z)
      (offset size : Z) (values : list float)
  | vkCmdPipelineBarrier (image : hImage H) (oldLayout newLayout : VkImageLayout)
  | drawUI.

Definition CommandBuffer := list Cmd.
End Commands.

Arguments vkCmdEndRenderPass {F H}.
Arguments drawUI {F H}.
Arguments vkCmdBeginRenderPass {F H} info.
Arguments vkCmdSetViewport {F H}.
Arguments vkCmdSetScissor {F H}.
Arguments vkCmdSetDepthBias {F H}.
Arguments vkCmdBindDescriptorSets {F H}.
Arguments vkCmdBindPipeline {F H}.
Arguments vkCmdBindVertexBuffers {F H}.
Arguments vkCmdBindIndexBuffer {F H}.
Arguments vkCmdDrawIndexed {F H}.
Arguments vkCmdDraw {F H}.
Arguments vkCmdPushConstants {F H}.
Arguments vkCmdPipelineBarrier {F H}.
Arguments ClearColor {F}.
Arguments ClearDepthStencil {F}.
Arguments Build_Viewport {F}.
Arguments Build_RenderPassBeginInfo {F H}.
Arguments renderPass {F H}.
Arguments framebuffer {F H}.
Arguments renderArea {F H}.
Arguments pClearValues {F H}.

(** ** The example base

    Modelled from the spec: the example base class is not among the sources;
    these are its members that the examples read and write.  [drawCmdBuffers]
    holds what is recorded in each draw command buffer, [submitted] what has
    been handed to the queue. *)
Record ExampleBase {F : FloatOps} {H : Handles} := {
  prepared : bool;
  paused : bool;
  camera : Camera;
  timer : float;
  cameraPos : vec3;
  zoom : float;
  rotation : vec3;
  width : Z;
  height : Z;
  defaultClearColor : ClearValue;
  drawCmdBuffers : list (CommandBuffer H);
  currentBuffer : Z;
  submitted : list (CommandBuffer H);
}.
Arguments ExampleBase {F} H.

Section ExampleBaseUpdates.
Context {F : FloatOps} {H : Handles}.

Definition with_drawCmdBuffers (bufs : list (CommandBuffer H))
    (b : ExampleBase H) : ExampleBase H :=
  {| prepared := prepared b; paused := paused b; camera := camera b;
     timer := timer b; cameraPos := cameraPos b; zoom := zoom b;
     rotation := rotation b; width := width b; height := height b;
     defaultClearColor := defaultClearColor b;
     drawCmdBuffers := bufs;
     currentBuffer := currentBuffer b; submitted := submitted b |}.

Definition with_submitted (q : list (CommandBuffer H))
    (b : ExampleBase H) : ExampleBase H :=
  {| prepared := prepared b; paused := paused b; camera := camera b;
     timer := timer b; cameraPos := cameraPos b; zoom := zoom b;
     rotation := rotation b; width := width b; height := height b;
     defaultClearColor := defaultClearColor b;
     drawCmdBuffers := drawCmdBuffers b;
     currentBuffer := currentBuffer b; submitted := q |}.

(** vkQueueSubmit of [drawCmdBuffers[currentBuffer]]. *)
Definition submit_current (dev : Device H) (b : ExampleBase H)
  : Result (ExampleBase H) :=
  let* cb := vector_at (drawCmdBuffers b) (currentBuffer b) in
  check VK_CHECK_RESULT (vkQueueSubmit dev (currentBuffer b)) in
  Ok (with_submitted (submitted b ++ [cb]) b).

(** The explicit barriers of a command buffer. *)
Definition is_barrier (c : Cmd H) : bool :=
  match c with
  | vkCmdPipelineBarrier _ _ _ => true
  | _ => false
  end.

Definition explicit_barriers (cmds : list (Cmd H)) : list (Cmd H) :=
  filter (fun c => is_barrier c = true) cmds.

(** The render passes begun in a command buffer, in order. *)
Definition begins (cmds : list (Cmd H)) : list (hRenderPass H * hFramebuffer H) :=
  omap (fun c => match c with
                 | vkCmdBeginRenderPass info => Some (renderPass info, framebuffer info)
                 | _ => None
                 end) cmds.

(** The descriptor sets and the pipelines bound in a command buffer. *)
Definition bound_descriptor_sets (cmds : list (Cmd H)) : list (hDescriptorSet H) :=
  concat (omap (fun c => match c with
                         | vkCmdBindDescriptorSets _ _ sets => Some sets
                         | _ => None
                         end) cmds).

Definition bound_pipelines (cmds : list (Cmd H)) : list (hPipeline H) :=
  omap (fun c => match c with
                 | vkCmdBindPipeline p => Some p
                 | _ => None
                 end) cmds.
End ExampleBaseUpdates.

(** ** Passes of a recorded frame

    A pass is the stretch of a command buffer between vkCmdBeginRenderPass
    and vkCmdEndRenderPass.  It writes the attachments of its framebuffer and
    reads the render targets sampled through the descriptor sets that are
    bound when it draws. *)
Section FrameGraph.
Context {F : FloatOps} {H : Handles}.
Context `{EqDecision (hImage H)}.

(** What the set-up code of an example fixes once: the attachments of each
    framebuffer, the combined image samplers written into each descriptor
    set with the layout they declare, the description of each render pass
    (None for the render pass of the example base), and which images are
    offscreen render targets. *)
Record Resources := {
  framebufferAttachments : hFramebuffer H -> list (hImage H);
  descriptorImages : hDescriptorSet H -> list (hImage H * VkImageLayout);
  renderPassInfo : hRenderPass H -> option RenderPassCreateInfo;
  isRenderTarget : hImage H -> bool;
}.

(** The combined image samplers that a list of descriptor writes leaves in
    a descriptor set. *)
Definition descriptor_table `{EqDecision (hDescriptorSet H)}
    (writes : list (WriteDescriptorSet H)) (s : hDescriptorSet H)
  : list (hImage H * VkImageLayout) :=
  omap (fun w =>
          if decide (dstSet w = s)
          then (fun d => (imageView d, imageLayout d)) <$> pImageInfo w
          else None) writes.

Record Pass := {
  pass_renderPass : hRenderPass H;
  pass_framebuffer : hFramebuffer H;
  pass_draws : list (list (hDescriptorSet H));
}.

Definition bind_sets (firstSet : Z) (sets bound : list (hDescriptorSet H))
  : list (hDescriptorSet H) :=
  take (Z.to_nat firstSet) bound ++ sets
    ++ drop (Z.to_nat firstSet + length sets) bound.

Definition add_draw (bound : list (hDescriptorSet H)) (p : Pass) : Pass :=
  {| pass_renderPass := pass_renderPass p;
     pass_framebuffer := pass_framebuffer p;
     pass_draws := pass_draws p ++ [bound] |}.

Fixpoint passes_from (bound : list (hDescriptorSet H)) (cur : option Pass)
    (cmds : list (Cmd H)) : list Pass :=
  match cmds with
  | [] => []
  | vkCmdBeginRenderPass info :: rest =>
      passes_from bound
        (Some {| pass_renderPass := renderPass info;
                 pass_framebuffer := framebuffer info;
                 pass_draws := [] |}) rest
  | vkCmdEndRenderPass :: rest =>
      match cur with
      | Some p => p :: passes_from bound None rest
      | None => passes_from bound None rest
      end
  | vkCmdBindDescriptorSets _ firstSet sets :: rest =>
      passes_from (bind_sets firstSet sets bound) cur rest
  | vkCmdDraw _ _ _ _ :: rest
  | vkCmdDrawIndexed _ _ _ _ _ :: rest =>
      passes_from bound (add_draw bound <$> cur) rest
  | _ :: rest => passes_from bound cur rest
  end.

Definition passes (cmds : list (Cmd H)) : list Pass :=
  passes_from [] None cmds.

Variable res : Resources.

Definition sampled (sets : list (hDescriptorSet H)) : list (hImage H) :=
  filter (fun T => isRenderTarget res T = true)
    (fst <$> concat (descriptorImages res <$> sets)).

Definition pass_writes (p : Pass) : list (hImage H) :=
  framebufferAttachments res (pass_framebuffer p).

Definition pass_reads (p : Pass) : list (hImage H) :=
  concat (sampled <$> pass_draws p).

(** Topological validity of a frame sequence. *)
Definition topologically_valid (ps : list Pass) : Prop :=
  forall (i : nat) (p : Pass) (T : hImage H),
    ps !! i = Some p -> T ∈ pass_reads p ->
    (T ∉ pass_writes p) /\
    exists (j : nat) (q : Pass),
      (j < i)%nat /\ ps !! j = Some q /\ T ∈ pass_writes q.

Fixpoint topo_check (written : list (hImage H)) (ps : list Pass) : bool :=
  match ps with
  | [] => true
  | p :: rest =>
      forallb (fun T => bool_decide (T ∈ written)
                        && negb (bool_decide (T ∈ pass_writes p)))
              (pass_reads p)
      && topo_check (written ++ pass_writes p) rest
  end.

(** The passes of a frame that write a given image. *)
Definition writers (T : hImage H) (ps : list Pass) : list nat :=
  fst <$> filter (fun ip => T ∈ pass_writes ip.2) (imap pair ps).

Definition readers (T : hImage H) (ps : list Pass) : list nat :=
  fst <$> filter (fun ip => T ∈ pass_reads ip.2) (imap pair ps).

(** A render target takes part in a frame when a pass of the frame writes
    it or reads it. *)
Definition occurs (T : hImage H) (ps : list Pass) : Prop :=
  isRenderTarget res T = true /\ (writers T ps <> [] \/ readers T ps <> []).

(** Single writer: a render target that takes part in the frame has exactly
    one writing pass, and every pass that reads it comes later. *)
Definition single_writer (ps : list Pass) : Prop :=
  forall T : hImage H, occurs T ps ->
    exists w : nat, writers T ps = [w] /\
      forall r : nat, r ∈ readers T ps -> (w < r)%nat.

Fixpoint single_writer_check_on (ps : list Pass) (Ts : list (hImage H)) : bool :=
  match Ts with
  | [] => true
  | T :: rest =>
      match writers T ps with
      | [w] => forallb (fun r => (w <? r)%nat) (readers T ps)
      | _ => false
      end && single_writer_check_on ps rest
  end.

Definition render_targets_of (ps : list Pass) : list (hImage H) :=
  filter (fun T => isRenderTarget res T = true) (concat (pass_writes <$> ps))
  ++ concat (pass_reads <$> ps).

(** The identity of a pass, and the draws of a frame with the framebuffer
    they render to and the descriptor sets bound when they are issued. *)
Definition pass_ids (ps : list Pass) : list (hRenderPass H * hFramebuffer H) :=
  (fun p => (pass_renderPass p, pass_framebuffer p)) <$> ps.

Definition frame_draws (ps : list Pass)
  : list (hFramebuffer H * list (hDescriptorSet H)) :=
  concat ((fun p => pair (pass_framebuffer p) <$> pass_draws p) <$> ps).

(** *** Layout transitions and visibility along a command buffer

    What the render passes themselves guarantee: beginning a render pass
    puts its attachments into the layouts of the subpass, ending it puts
    them into their final layouts, and a dependency from subpass 0 to
    VK_SUBPASS_EXTERNAL makes the attachment writes it names visible to the
    reads it names.  Each draw is checked against this: every render target
    sampled through a bound descriptor set must be readable by the fragment
    shader and be in the layout the descriptor declares. *)
Record SyncState := {
  img_layout : hImage H -> option VkImageLayout;
  img_readable : hImage H -> bool;
  bound_sets : list (hDescriptorSet H);
  in_pass : option (hRenderPass H * hFramebuffer H);
}.

Definition sync_init : SyncState :=
  {| img_layout := fun _ => None;
     img_readable := fun _ => false;
     bound_sets := [];
     in_pass := None |}.

Definition has_bit (mask bit : Z) : bool := negb (Z.land mask bit =? 0).

Definition subpass_layout (info : RenderPassCreateInfo) (k : nat)
  : option VkImageLayout :=
  match pSubpasses info with
  | sub :: _ =>
      match filter (fun r => attachment r = k) (pColorAttachments sub) with
      | r :: _ => Some (layout r)
      | [] =>
          match pDepthStencilAttachment sub with
          | Some r => if decide (attachment r = k) then Some (layout r) else None
          | None => None
          end
      end
  | [] => None
  end.

Definition write_access (info : RenderPassCreateInfo) (k : nat) : Z :=
  match subpass_layout info k with
  | Some VK_IMAGE_LAYOUT_COLOR_ATTACHMENT_OPTIMAL => VK_ACCESS_COLOR_ATTACHMENT_WRITE_BIT
  | Some VK_IMAGE_LAYOUT_DEPTH_STENCIL_ATTACHMENT_OPTIMAL =>
      VK_ACCESS_DEPTH_STENCIL_ATTACHMENT_WRITE_BIT
  | _ => 0
  end.

Definition made_readable (info : RenderPassCreateInfo) (k : nat) : bool :=
  existsb (fun d =>
             (srcSubpass d =? 0) && (dstSubpass d =? VK_SUBPASS_EXTERNAL)
             && has_bit (srcAccessMask d) (write_access info k)
             && has_bit (dstStageMask d) VK_PIPELINE_STAGE_FRAGMENT_SHADER_BIT
             && has_bit (dstAccessMask d) VK_ACCESS_SHADER_READ_BIT)
          (pDependencies info).

Definition upd {B} (f : hImage H -> B) (T : hImage H) (v : B) : hImage H -> B :=
  fun T' => if decide (T' = T) then v else f T'.

Fixpoint at_begin (info : option RenderPassCreateInfo) (k : nat)
    (atts : list (hImage H)) (s : SyncState) : SyncState :=
  match atts with
  | [] => s
  | T :: rest =>
      at_begin info (S k) rest
        {| img_layout := upd (img_layout s) T (info ≫= fun i => subpass_layout i k);
           img_readable := upd (img_readable s) T false;
           bound_sets := bound_sets s;
           in_pass := in_pass s |}
  end.

Fixpoint at_end (info : option RenderPassCreateInfo) (k : nat)
    (atts : list (hImage H)) (s : SyncState) : SyncState :=
  match atts with
  | [] => s
  | T :: rest =>
      at_end info (S k) rest
        {| img_layout :=
             upd (img_layout s) T
               (info ≫= fun i => finalLayout <$> pAttachments i !! k);
           img_readable :=
             upd (img_readable s) T
               (match info with Some i => made_readable i k | None => false end);
           bound_sets := bound_sets s;
           in_pass := in_pass s |}
  end.

Definition draw_ok (s : SyncState) : bool :=
  forallb (fun '(T, l) =>
             negb (isRenderTarget res T)
             || (img_readable s T && bool_decide (img_layout s T = Some l)))
          (concat (descriptorImages res <$> bound_sets s)).

Definition with_pass (p : option (hRenderPass H * hFramebuffer H))
    (s : SyncState) : SyncState :=
  {| img_layout := img_layout s; img_readable := img_readable s;
     bound_sets := bound_sets s; in_pass := p |}.

(** The effect of one command on layouts, visibility and bindings. *)
Definition sync_step (s : SyncState) (c : Cmd H) : SyncState :=
  match c with
  | vkCmdBeginRenderPass info =>
      with_pass (Some (renderPass info, framebuffer info))
        (at_begin (renderPassInfo res (renderPass info)) 0
           (framebufferAttachments res (framebuffer info)) s)
  | vkCmdEndRenderPass =>
      match in_pass s with
      | Some (rp, fb) =>
          with_pass None
            (at_end (renderPassInfo res rp) 0 (framebufferAttachments res fb) s)
      | None => s
      end
  | vkCmdBindDescriptorSets _ firstSet sets =>
      {| img_layout := img_layout s; img_readable := img_readable s;
         bound_sets := bind_sets firstSet sets (bound_sets s);
         in_pass := in_pass s |}
  | _ => s
  end.

Definition sync_run (s : SyncState) (cmds : list (Cmd H)) : SyncState :=
  foldl sync_step s cmds.

Definition is_draw (c : Cmd H) : bool :=
  match c with
  | vkCmdDraw _ _ _ _ | vkCmdDrawIndexed _ _ _ _ _ => true
  | _ => false
  end.

(** Every draw of the command buffer finds the render targets it samples
    readable and in the declared layout. *)
Fixpoint sync_check (s : SyncState) (cmds : list (Cmd H)) : bool :=
  match cmds with
  | [] => true
  | c :: rest =>
      (if is_draw c then draw_ok s else true) && sync_check (sync_step s c) rest
  end.

(** *** The layout a consumed render target is left in

    A render target is left in the final layout that the render pass of the
    framebuffer it is attached to gives to its attachment. *)
Fixpoint index_of (T : hImage H) (l : list (hImage H)) : option nat :=
  match l with
  | [] => None
  | T' :: rest => if decide (T' = T) then Some 0%nat else S <$> index_of T rest
  end.

Fixpoint target_final_layout (fbs : list (hFramebuffer H * hRenderPass H))
    (T : hImage H) : option VkImageLayout :=
  match fbs with
  | [] => None
  | (fb, rp) :: rest =>
      match index_of T (framebufferAttachments res fb) with
      | Some k => renderPassInfo res rp ≫= fun i => finalLayout <$> pAttachments i !! k
      | None => target_final_layout rest T
      end
  end.

(** For every render target sampled through one of [sets]: the target, the
    final layout its writing render pass leaves it in, and the layout the
    sampling descriptor declares. *)
Definition cross_pass_layouts (fbs : list (hFramebuffer H * hRenderPass H))
    (sets : list (hDescriptorSet H))
  : list (hImage H * option VkImageLayout * VkImageLayout) :=
  (fun Tl : hImage H * VkImageLayout => (Tl.1, target_final_layout fbs Tl.1, Tl.2))
  <$> filter (fun Tl : hImage H * VkImageLayout => isRenderTarget res Tl.1 = true)
        (concat (descriptorImages res <$> sets)).
End FrameGraph.

Arguments Resources {H}.
Arguments Pass {H}.

(** ** The bloom example (separable two-pass blur) *)
Module Bloom.

Definition FB_DIM : Z := 256.
Definition FB_COLOR_FORMAT : VkFormat := VK_FORMAT_R8G8B8A8_UNORM.

(** The member initializer [bool bloom{ true }]. *)
Definition bloom_initially : bool := true.

Inductive UniformBuffer :=
  | uniformBuffers_scene
  | uniformBuffers_skyBox
  | uniformBuffers_blurParams.

Inductive Pipeline :=
  | pipelines_blurVert
  | pipelines_blurHorz
  | pipelines_glowPass
  | pipelines_phongPass
  | pipelines_skyBox.

Inductive PipelineLayout :=
  | pipelineLayouts_blur
  | pipelineLayouts_scene.

Inductive DescriptorSet :=
  | descriptorSets_blurVert
  | descriptorSets_blurHorz
  | descriptorSets_scene
  | descriptorSets_skyBox.

(** [ExampleBase_renderPass] and [ExampleBase_frameBuffers] are the render
    pass and the per-swapchain-image framebuffers of the example base. *)
Inductive RenderPass :=
  | offscreenPass_renderPass
  | ExampleBase_renderPass.

Inductive Framebuffer :=
  | offscreenPass_framebuffers (k : nat)
  | ExampleBase_frameBuffers (i : nat).

Inductive Image :=
  | framebuffers_color (k : nat)
  | framebuffers_depth (k : nat)
  | swapChain_image (i : nat)
  | depthStencil_image
  | textures_cubemap.

#[global] Instance Image_eq_dec : EqDecision Image.
Proof. solve_decision. Defined.

#[global] Instance DescriptorSet_eq_dec : EqDecision DescriptorSet.
Proof. solve_decision. Defined.

Definition handles : Handles :=
  {| hUniformBuffer := UniformBuffer;
     hPipeline := Pipeline;
     hPipelineLayout := PipelineLayout;
     hDescriptorSet := DescriptorSet;
     hRenderPass := RenderPass;
     hFramebuffer := Framebuffer;
     hImage := Image |}.

#[global] Instance hImage_eq_dec : EqDecision (hImage handles) := Image_eq_dec.

(** *** prepareOffscreen: the offscreen render pass and its framebuffers *)

(** The VkRenderPassCreateInfo handed to vkCreateRenderPass. *)
Definition prepareOffscreen_renderPassInfo (fbDepthFormat : VkFormat)
  : RenderPassCreateInfo :=
  {| pAttachments :=
       [ {| format := FB_COLOR_FORMAT;
            samples := VK_SAMPLE_COUNT_1_BIT;
            loadOp := VK_ATTACHMENT_LOAD_OP_CLEAR;
            storeOp := VK_ATTACHMENT_STORE_OP_STORE;
            stencilLoadOp := VK_ATTACHMENT_LOAD_OP_DONT_CARE;
            stencilStoreOp := VK_ATTACHMENT_STORE_OP_DONT_CARE;
            initialLayout := VK_IMAGE_LAYOUT_UNDEFINED;
            finalLayout := VK_IMAGE_LAYOUT_SHADER_READ_ONLY_OPTIMAL |};
         {| format := fbDepthFormat;
            samples := VK_SAMPLE_COUNT_1_BIT;
            loadOp := VK_ATTACHMENT_LOAD_OP_CLEAR;
            storeOp := VK_ATTACHMENT_STORE_OP_DONT_CARE;
            stencilLoadOp := VK_ATTACHMENT_LOAD_OP_DONT_CARE;
            stencilStoreOp := VK_ATTACHMENT_STORE_OP_DONT_CARE;
            initialLayout := VK_IMAGE_LAYOUT_UNDEFINED;
            finalLayout := VK_IMAGE_LAYOUT_DEPTH_STENCIL_ATTACHMENT_OPTIMAL |} ];
     pSubpasses :=
       [ {| pColorAttachments :=
              [ {| attachment := 0;
                   layout := VK_IMAGE_LAYOUT_COLOR_ATTACHMENT_OPTIMAL |} ];
            pDepthStencilAttachment :=
              Some {| attachment := 1;
                      layout := VK_IMAGE_LAYOUT_DEPTH_STENCIL_ATTACHMENT_OPTIMAL |} |} ];
     pDependencies :=
       [ {| srcSubpass := VK_SUBPASS_EXTERNAL;
            dstSubpass := 0;
            srcStageMask := VK_PIPELINE_STAGE_FRAGMENT_SHADER_BIT;
            dstStageMask := VK_PIPELINE_STAGE_COLOR_ATTACHMENT_OUTPUT_BIT;
            srcAccessMask := VK_ACCESS_SHADER_READ_BIT;
            dstAccessMask := VK_ACCESS_COLOR_ATTACHMENT_WRITE_BIT;
            dependencyFlags := VK_DEPENDENCY_BY_REGION_BIT |};
         {| srcSubpass := 0;
            dstSubpass := VK_SUBPASS_EXTERNAL;
            srcStageMask := VK_PIPELINE_STAGE_COLOR_ATTACHMENT_OUTPUT_BIT;
            dstStageMask := VK_PIPELINE_STAGE_FRAGMENT_SHADER_BIT;
            srcAccessMask := VK_ACCESS_COLOR_ATTACHMENT_WRITE_BIT;
            dstAccessMask := VK_ACCESS_SHADER_READ_BIT;
            dependencyFlags := VK_DEPENDENCY_BY_REGION_BIT |} ] |}.

(** prepareOffscreenFramebuffer: the attachments of the framebuffer it
    creates, and the descriptor it fills for later use. *)
Definition prepareOffscreenFramebuffer_attachments (k : nat) : list Image :=
  [ framebuffers_color k; framebuffers_depth k ].

Definition prepareOffscreenFramebuffer_descriptor (k : nat)
  : DescriptorImageInfo handles :=
  {| imageView := framebuffers_color k : hImage handles;
     imageLayout := VK_IMAGE_LAYOUT_SHADER_READ_ONLY_OPTIMAL |}.

(** *** setupDescriptorSet *)

Definition writeDescriptorSet_buffer (s : DescriptorSet) (b : Z)
    (u : UniformBuffer) : WriteDescriptorSet handles :=
  {| dstSet := s : hDescriptorSet handles;
     descriptorType := eUniformBuffer;
     dstBinding := b;
     pBufferInfo := Some (u : hUniformBuffer handles);
     pImageInfo := None |}.

Definition writeDescriptorSet_image (s : DescriptorSet) (b : Z)
    (d : DescriptorImageInfo handles) : WriteDescriptorSet handles :=
  {| dstSet := s : hDescriptorSet handles;
     descriptorType := eCombinedImageSampler;
     dstBinding := b;
     pBufferInfo := None;
     pImageInfo := Some d |}.

(** Allocates the four descriptor sets and writes them; the result is the
    list of descriptor writes handed to vkUpdateDescriptorSets.
    [cubemapLayout] is the layout recorded in textures.cubemap.descriptor by
    the texture loader. *)
Definition setupDescriptorSet (dev : Device handles)
    (cubemapLayout : VkImageLayout) : Result (list (WriteDescriptorSet handles)) :=
  (* Full screen blur, vertical *)
  check VK_CHECK_RESULT (vkAllocateDescriptorSets dev descriptorSets_blurVert) in
  let w1 :=
    [ writeDescriptorSet_buffer descriptorSets_blurVert 0 uniformBuffers_blurParams;
      writeDescriptorSet_image descriptorSets_blurVert 1
        (prepareOffscreenFramebuffer_descriptor 0) ] in
  (* Horizontal *)
  check VK_CHECK_RESULT (vkAllocateDescriptorSets dev descriptorSets_blurHorz) in
  let w2 :=
    [ writeDescriptorSet_buffer descriptorSets_blurHorz 0 uniformBuffers_blurParams;
      writeDescriptorSet_image descriptorSets_blurHorz 1
        (prepareOffscreenFramebuffer_descriptor 1) ] in
  (* Scene rendering *)
  check VK_CHECK_RESULT (vkAllocateDescriptorSets dev descriptorSets_scene) in
  let w3 :=
    [ writeDescriptorSet_buffer descriptorSets_scene 0 uniformBuffers_scene ] in
  (* Skybox *)
  check VK_CHECK_RESULT (vkAllocateDescriptorSets dev descriptorSets_skyBox) in
  let w4 :=
    [ writeDescriptorSet_buffer descriptorSets_skyBox 0 uniformBuffers_skyBox;
      writeDescriptorSet_image descriptorSets_skyBox 1
        {| imageView := textures_cubemap : hImage handles;
           imageLayout := cubemapLayout |} ] in
  Ok (w1 ++ w2 ++ w3 ++ w4).

Section WithFloat.
Context {F : FloatOps}.

Record UBO := {
  projection : mat4;
  view : mat4;
  model : mat4;
}.

Record UBOBlurParams := {
  blurScale : float;
  blurStrength : float;
}.

(** The members of the example; [X_mapped] is the content of the
    persistently mapped memory of uniform buffer X. *)
Record State := {
  base : ExampleBase handles;
  bloom : bool;
  models_ufo : Model;
  models_ufoGlow : Model;
  models_skyBox : Model;
  ubos_scene : UBO;
  ubos_skyBox : UBO;
  ubos_blurParams : UBOBlurParams;
  uniformBuffers_scene_mapped : UBO;
  uniformBuffers_skyBox_mapped : UBO;
  uniformBuffers_blurParams_mapped : UBOBlurParams;
  offscreenPass_width : Z;
  offscreenPass_height : Z;
}.

Definition with_base (b : ExampleBase handles) (st : State) : State :=
  {| base := b; bloom := bloom st;
     models_ufo := models_ufo st; models_ufoGlow := models_ufoGlow st;
     models_skyBox := models_skyBox st;
     ubos_scene := ubos_scene st; ubos_skyBox := ubos_skyBox st;
     ubos_blurParams := ubos_blurParams st;
     uniformBuffers_scene_mapped := uniformBuffers_scene_mapped st;
     uniformBuffers_skyBox_mapped := uniformBuffers_skyBox_mapped st;
     uniformBuffers_blurParams_mapped := uniformBuffers_blurParams_mapped st;
     offscreenPass_width := offscreenPass_width st;
     offscreenPass_height := offscreenPass_height st |}.

Definition with_bloom (v : bool) (st : State) : State :=
  {| base := base st; bloom := v;
     models_ufo := models_ufo st; models_ufoGlow := models_ufoGlow st;
     models_skyBox := models_skyBox st;
     ubos_scene := ubos_scene st; ubos_skyBox := ubos_skyBox st;
     ubos_blurParams := ubos_blurParams st;
     uniformBuffers_scene_mapped := uniformBuffers_scene_mapped st;
     uniformBuffers_skyBox_mapped := uniformBuffers_skyBox_mapped st;
     uniformBuffers_blurParams_mapped := uniformBuffers_blurParams_mapped st;
     offscreenPass_width := offscreenPass_width st;
     offscreenPass_height := offscreenPass_height st |}.

(** The part of the state that only the uniform-buffer updates write. *)
Definition with_uniforms (scene skyBox : UBO) (blur : UBOBlurParams)
    (mscene mskyBox : UBO) (mblur : UBOBlurParams) (st : State) : State :=
  {| base := base st; bloom := bloom st;
     models_ufo := models_ufo st; models_ufoGlow := models_ufoGlow st;
     models_skyBox := models_skyBox st;
     ubos_scene := scene; ubos_skyBox := skyBox;
     ubos_blurParams := blur;
     uniformBuffers_scene_mapped := mscene;
     uniformBuffers_skyBox_mapped := mskyBox;
     uniformBuffers_blurParams_mapped := mblur;
     offscreenPass_width := offscreenPass_width st;
     offscreenPass_height := offscreenPass_height st |}.

(** *** buildCommandBuffers *)

Definition bind_model (m : Model) : list (Cmd handles) :=
  [ vkCmdBindVertexBuffers 0 [vertices_buffer m] [0];
    vkCmdBindIndexBuffer (indices_buffer m) 0 VK_INDEX_TYPE_UINT32;
    vkCmdDrawIndexed (indexCount m) 1 0 0 0 ].

Definition offscreen_beginInfo (st : State) (k : nat)
  : RenderPassBeginInfo handles :=
  {| renderPass := offscreenPass_renderPass : hRenderPass handles;
     framebuffer := offscreenPass_framebuffers k : hFramebuffer handles;
     renderArea := Build_Rect2D (offscreenPass_width st) (offscreenPass_height st) 0 0;
     pClearValues :=
       [ ClearColor (fconst 0) (fconst 0) (fconst 0) (fconst 1);
         ClearDepthStencil (fconst 1) 0 ] |}.

(** The commands recorded into draw command buffer [i] between
    vkBeginCommandBuffer and vkEndCommandBuffer. *)
Definition recordCommands (st : State) (i : nat) : list (Cmd handles) :=
  (if bloom st then
     [ vkCmdSetViewport 0
         [ Build_Viewport (fofint (offscreenPass_width st))
             (fofint (offscreenPass_height st)) (fconst 0) (fconst 1) ];
       vkCmdSetScissor 0
         [ Build_Rect2D (offscreenPass_width st) (offscreenPass_height st) 0 0 ];
       (* First render pass: glow parts of the model *)
       vkCmdBeginRenderPass (offscreen_beginInfo st 0);
       vkCmdBindDescriptorSets (pipelineLayouts_scene : hPipelineLayout handles) 0
         [ descriptorSets_scene : hDescriptorSet handles ];
       vkCmdBindPipeline (pipelines_glowPass : hPipeline handles) ]
     ++ bind_model (models_ufoGlow st)
     ++ [ vkCmdEndRenderPass;
          (* Second render pass: vertical blur *)
          vkCmdBeginRenderPass (offscreen_beginInfo st 1);
          vkCmdBindDescriptorSets (pipelineLayouts_blur : hPipelineLayout handles) 0
            [ descriptorSets_blurVert : hDescriptorSet handles ];
          vkCmdBindPipeline (pipelines_blurVert : hPipeline handles);
          vkCmdDraw 3 1 0 0;
          vkCmdEndRenderPass ]
   else [])
  (* Third render pass: scene rendering with applied vertical blur *)
  ++ [ vkCmdBeginRenderPass
         {| renderPass := ExampleBase_renderPass : hRenderPass handles;
            framebuffer := ExampleBase_frameBuffers i : hFramebuffer handles;
            renderArea := Build_Rect2D (width (base st)) (height (base st)) 0 0;
            pClearValues :=
              [ defaultClearColor (base st); ClearDepthStencil (fconst 1) 0 ] |};
       vkCmdSetViewport 0
         [ Build_Viewport (fofint (width (base st))) (fofint (height (base st)))
             (fconst 0) (fconst 1) ];
       vkCmdSetScissor 0
         [ Build_Rect2D (width (base st)) (height (base st)) 0 0 ];
       (* Skybox *)
       vkCmdBindDescriptorSets (pipelineLayouts_scene : hPipelineLayout handles) 0
         [ descriptorSets_skyBox : hDescriptorSet handles ];
       vkCmdBindPipeline (pipelines_skyBox : hPipeline handles) ]
  ++ bind_model (models_skyBox st)
  (* 3D scene *)
  ++ [ vkCmdBindDescriptorSets (pipelineLayouts_scene : hPipelineLayout handles) 0
         [ descriptorSets_scene : hDescriptorSet handles ];
       vkCmdBindPipeline (pipelines_phongPass : hPipeline handles) ]
  ++ bind_model (models_ufo st)
  ++ (if bloom st then
        [ vkCmdBindDescriptorSets (pipelineLayouts_blur : hPipelineLayout handles) 0
            [ descriptorSets_blurHorz : hDescriptorSet handles ];
          vkCmdBindPipeline (pipelines_blurHorz : hPipeline handles);
          vkCmdDraw 3 1 0 0 ]
      else [])
  ++ [ drawUI; vkCmdEndRenderPass ].

Definition buildCommandBuffers (dev : Device handles) (st : State)
  : Result State :=
  let* bufs :=
    for_range 0 (length (drawCmdBuffers (base st))) (fun i =>
      check VK_CHECK_RESULT (vkBeginCommandBuffer dev i) in
      let cmds := recordCommands st i in
      check VK_CHECK_RESULT (vkEndCommandBuffer dev i) in
      Ok cmds) in
  Ok (with_base (with_drawCmdBuffers bufs (base st)) st).

(** *** Uniform buffer updates *)

Definition updateUniformBuffersScene (st : State) : State :=
  let t := radians (fmul (timer (base st)) (fconst 360)) in
  let m0 :=
    glm_translate (mat4_diag (fconst 1))
      (vec3_add (fmul (fsin t) (fconst 0.25), fneg (fconst 1),
                 fmul (fcos t) (fconst 0.25))
                (cameraPos (base st))) in
  let m1 := glm_rotate m0 (fmul (fneg (fsin t)) (fconst 0.15))
              (fconst 1, fconst 0, fconst 0) in
  let m2 := glm_rotate m1 t (fconst 0, fconst 1, fconst 0) in
  let scene :=
    {| projection := matrices_perspective (camera (base st));
       view := matrices_view (camera (base st));
       model := m2 |} in
  let skyBox :=
    {| projection :=
         glm_perspective (radians (fconst 45))
           (fdiv (fofint (width (base st))) (fofint (height (base st))))
           (fconst 0.1) (fconst 256);
       view := mat4_of_mat3 (matrices_view (camera (base st)));
       model := mat4_diag (fconst 1) |} in
  with_uniforms scene skyBox (ubos_blurParams st)
    scene skyBox (uniformBuffers_blurParams_mapped st) st.

Definition updateUniformBuffersBlur (st : State) : State :=
  with_uniforms (ubos_scene st) (ubos_skyBox st) (ubos_blurParams st)
    (uniformBuffers_scene_mapped st) (uniformBuffers_skyBox_mapped st)
    (ubos_blurParams st) st.

(** *** draw, render and the UI callback *)

Section WithBase.
(** prepareFrame and submitFrame of the example base, taken as parameters. *)
Variable prepareFrame submitFrame : ExampleBase handles -> Result (ExampleBase handles).

Definition draw (dev : Device handles) (st : State) : Result State :=
  let* b1 := prepareFrame (base st) in
  let* b2 := submit_current dev b1 in
  let* b3 := submitFrame b2 in
  Ok (with_base b3 st).

Definition render (dev : Device handles) (st : State) : Result State :=
  if negb (prepared (base st)) then Ok st
  else
    let* st1 := draw dev st in
    if negb (paused (base st1)) || updated (camera (base st1))
    then Ok (updateUniformBuffersScene st1)
    else Ok st1.
End WithBase.

(** Modelled from the spec: the UI overlay collaborator of section 6.
    [header_Settings] is what overlay->header returns; a widget field is
    [Some v] when the widget reports a change and has stored [v]. *)
Record UIOverlay := {
  header_Settings : bool;
  checkBox_Bloom : option bool;
  inputFloat_Scale : option float;
}.

Definition OnUpdateUIOverlay (dev : Device handles) (overlay : UIOverlay)
    (st : State) : Result State :=
  if header_Settings overlay then
    let* st1 :=
      match checkBox_Bloom overlay with
      | Some v => buildCommandBuffers dev (with_bloom v st)
      | None => Ok st
      end in
    match inputFloat_Scale overlay with
    | Some v =>
        Ok (updateUniformBuffersBlur
              (with_uniforms (ubos_scene st1) (ubos_skyBox st1)
                 {| blurScale := v;
                    blurStrength := blurStrength (ubos_blurParams st1) |}
                 (uniformBuffers_scene_mapped st1)
                 (uniformBuffers_skyBox_mapped st1)
                 (uniformBuffers_blurParams_mapped st1) st1))
    | None => Ok st1
    end
  else Ok st.

(** *** The resources fixed by the set-up code *)

Definition written_descriptors : list (WriteDescriptorSet handles) :=
  match setupDescriptorSet (okDevice handles) VK_IMAGE_LAYOUT_SHADER_READ_ONLY_OPTIMAL with
  | Ok ws => ws
  | Err _ => []
  end.

(** The framebuffers of the example base attach the swapchain image and the
    depth-stencil image of the base, never an image created by the example. *)
Definition resources (fbDepthFormat : VkFormat) : Resources :=
  {| framebufferAttachments := fun fb : hFramebuffer handles =>
       match fb with
       | offscreenPass_framebuffers k => prepareOffscreenFramebuffer_attachments k
       | ExampleBase_frameBuffers i => [ swapChain_image i; depthStencil_image ]
       end : list (hImage handles);
     descriptorImages := descriptor_table written_descriptors;
     renderPassInfo := fun rp : hRenderPass handles =>
       match rp with
       | offscreenPass_renderPass => Some (prepareOffscreen_renderPassInfo fbDepthFormat)
       | ExampleBase_renderPass => None
       end;
     isRenderTarget := fun T : hImage handles =>
       match T with
       | framebuffers_color _ | framebuffers_depth _ => true
       | _ => false
       end |}.
End WithFloat.

End Bloom.

(** ** The shadow-mapping example (directional light, optional PCF) *)
Module ShadowMapping.

Definition DEPTH_FORMAT : VkFormat := VK_FORMAT_D16_UNORM.
Definition SHADOWMAP_DIM : Z := 2048.

(** The member initializers of displayShadowMap, filterPCF and sceneIndex. *)
Definition displayShadowMap_initially : bool := false.
Definition filterPCF_initially : bool := true.
Definition sceneIndex_initially : Z := 0.

Inductive UniformBuffer :=
  | uniformBuffers_scene
  | uniformBuffers_offscreen
  | uniformBuffers_debug.

Inductive Pipeline :=
  | pipelines_quad
  | pipelines_offscreen
  | pipelines_sceneShadow
  | pipelines_sceneShadowPCF.

Inductive PipelineLayout :=
  | pipelineLayouts_quad
  | pipelineLayouts_offscreen.

Inductive DescriptorSet :=
  | descriptorSets_offscreen
  | descriptorSets_scene
  | descriptorSet.

Inductive RenderPass :=
  | offscreenPass_renderPass
  | ExampleBase_renderPass.

Inductive Framebuffer :=
  | offscreenPass_frameBuffer
  | ExampleBase_frameBuffers (i : nat).

Inductive Image :=
  | offscreenPass_depth
  | swapChain_image (i : nat)
  | depthStencil_image.

#[global] Instance Image_eq_dec : EqDecision Image.
Proof. solve_decision. Defined.

#[global] Instance DescriptorSet_eq_dec : EqDecision DescriptorSet.
Proof. solve_decision. Defined.

#[global] Instance Pipeline_eq_dec : EqDecision Pipeline.
Proof. solve_decision. Defined.

Definition handles : Handles :=
  {| hUniformBuffer := UniformBuffer;
     hPipeline := Pipeline;
     hPipelineLayout := PipelineLayout;
     hDescriptorSet := DescriptorSet;
     hRenderPass := RenderPass;
     hFramebuffer := Framebuffer;
     hImage := Image |}.

#[global] Instance hImage_eq_dec : EqDecision (hImage handles) := Image_eq_dec.

(** *** prepareOffscreenRenderpass *)
Definition prepareOffscreenRenderpass_info : RenderPassCreateInfo :=
  {| pAttachments :=
       [ {| format := DEPTH_FORMAT;
            samples := VK_SAMPLE_COUNT_1_BIT;
            loadOp := VK_ATTACHMENT_LOAD_OP_CLEAR;
            storeOp := VK_ATTACHMENT_STORE_OP_STORE;
            stencilLoadOp := VK_ATTACHMENT_LOAD_OP_DONT_CARE;
            stencilStoreOp := VK_ATTACHMENT_STORE_OP_DONT_CARE;
            initialLayout := VK_IMAGE_LAYOUT_UNDEFINED;
            finalLayout := VK_IMAGE_LAYOUT_DEPTH_STENCIL_READ_ONLY_OPTIMAL |} ];
     pSubpasses :=
       [ {| pColorAttachments := [];
            pDepthStencilAttachment :=
              Some {| attachment := 0;
                      layout := VK_IMAGE_LAYOUT_DEPTH_STENCIL_ATTACHMENT_OPTIMAL |} |} ];
     pDependencies :=
       [ {| srcSubpass := VK_SUBPASS_EXTERNAL;
            dstSubpass := 0;
            srcStageMask := VK_PIPELINE_STAGE_FRAGMENT_SHADER_BIT;
            dstStageMask := VK_PIPELINE_STAGE_EARLY_FRAGMENT_TESTS_BIT;
            srcAccessMask := VK_ACCESS_SHADER_READ_BIT;
            dstAccessMask := VK_ACCESS_DEPTH_STENCIL_ATTACHMENT_WRITE_BIT;
            dependencyFlags := VK_DEPENDENCY_BY_REGION_BIT |};
         {| srcSubpass := 0;
            dstSubpass := VK_SUBPASS_EXTERNAL;
            srcStageMask := VK_PIPELINE_STAGE_LATE_FRAGMENT_TESTS_BIT;
            dstStageMask := VK_PIPELINE_STAGE_FRAGMENT_SHADER_BIT;
            srcAccessMask := VK_ACCESS_DEPTH_STENCIL_ATTACHMENT_WRITE_BIT;
            dstAccessMask := VK_ACCESS_SHADER_READ_BIT;
            dependencyFlags := VK_DEPENDENCY_BY_REGION_BIT |} ] |}.

(** prepareOffscreenFramebuffer: the single attachment of the framebuffer. *)
Definition prepareOffscreenFramebuffer_attachments : list Image :=
  [ offscreenPass_depth ].

(** *** setupDescriptorSets *)

Definition write_buffer (s : DescriptorSet) (b : Z) (u : UniformBuffer)
  : WriteDescriptorSet handles :=
  {| dstSet := s : hDescriptorSet handles;
     descriptorType := eUniformBuffer;
     dstBinding := b;
     pBufferInfo := Some (u : hUniformBuffer handles);
     pImageInfo := None |}.

Definition write_image (s : DescriptorSet) (b : Z)
    (d : DescriptorImageInfo handles) : WriteDescriptorSet handles :=
  {| dstSet := s : hDescriptorSet handles;
     descriptorType := eCombinedImageSampler;
     dstBinding := b;
     pBufferInfo := None;
     pImageInfo := Some d |}.

Definition setupDescriptorSets (dev : Device handles)
  : Result (list (WriteDescriptorSet handles)) :=
  (* Textured quad descriptor set *)
  check VK_CHECK_RESULT (vkAllocateDescriptorSets dev descriptorSet) in
  (* Image descriptor for the shadow map attachment *)
  let texDescriptor : DescriptorImageInfo handles :=
    {| imageView := offscreenPass_depth : hImage handles;
       imageLayout := VK_IMAGE_LAYOUT_DEPTH_STENCIL_READ_ONLY_OPTIMAL |} in
  let w1 :=
    [ write_buffer descriptorSet 0 uniformBuffers_debug;
      write_image descriptorSet 1 texDescriptor ] in
  (* Offscreen *)
  check VK_CHECK_RESULT (vkAllocateDescriptorSets dev descriptorSets_offscreen) in
  let w2 := [ write_buffer descriptorSets_offscreen 0 uniformBuffers_offscreen ] in
  (* 3D scene *)
  check VK_CHECK_RESULT (vkAllocateDescriptorSets dev descriptorSets_scene) in
  let texDescriptor' : DescriptorImageInfo handles :=
    {| imageView := offscreenPass_depth : hImage handles;
       imageLayout := imageLayout texDescriptor |} in
  let w3 :=
    [ write_buffer descriptorSets_scene 0 uniformBuffers_scene;
      write_image descriptorSets_scene 1 texDescriptor' ] in
  Ok (w1 ++ w2 ++ w3).

Section WithFloat.
Context {F : FloatOps}.

Record UBOVSquad := {
  quad_projection : mat4;
  quad_model : mat4;
}.

Record UBOVSscene := {
  projection : mat4;
  view : mat4;
  model : mat4;
  depthBiasMVP : mat4;
  scene_lightPos : vec3;
}.

Record UBOOffscreenVS := {
  depthMVP : mat4;
}.

(** The uniform data: the three CPU-side blocks and the content of the
    mapped memory of the three uniform buffers. *)
Record Uniforms := {
  uboVSquad : UBOVSquad;
  uboVSscene : UBOVSscene;
  uboOffscreenVS : UBOOffscreenVS;
  uniformBuffers_debug_mapped : UBOVSquad;
  uniformBuffers_scene_mapped : UBOVSscene;
  uniformBuffers_offscreen_mapped : UBOOffscreenVS;
}.

Record State := {
  base : ExampleBase handles;
  displayShadowMap : bool;
  filterPCF : bool;
  zNear : float;
  zFar : float;
  depthBiasConstant : float;
  depthBiasSlope : float;
  lightPos : vec3;
  lightFOV : float;
  models_quad : Model;
  scenes : list Model;
  sceneIndex : Z;
  uniforms : Uniforms;
  offscreenPass_width : Z;
  offscreenPass_height : Z;
}.

Definition with_base (b : ExampleBase handles) (st : State) : State :=
  {| base := b; displayShadowMap := displayShadowMap st;
     filterPCF := filterPCF st; zNear := zNear st; zFar := zFar st;
     depthBiasConstant := depthBiasConstant st;
     depthBiasSlope := depthBiasSlope st; lightPos := lightPos st;
     lightFOV := lightFOV st; models_quad := models_quad st;
     scenes := scenes st; sceneIndex := sceneIndex st;
     uniforms := uniforms st;
     offscreenPass_width := offscreenPass_width st;
     offscreenPass_height := offscreenPass_height st |}.

(** The three members the UI writes. *)
Definition with_selection (idx : Z) (dsm pcf : bool) (st : State) : State :=
  {| base := base st; displayShadowMap := dsm;
     filterPCF := pcf; zNear := zNear st; zFar := zFar st;
     depthBiasConstant := depthBiasConstant st;
     depthBiasSlope := depthBiasSlope st; lightPos := lightPos st;
     lightFOV := lightFOV st; models_quad := models_quad st;
     scenes := scenes st; sceneIndex := idx;
     uniforms := uniforms st;
     offscreenPass_width := offscreenPass_width st;
     offscreenPass_height := offscreenPass_height st |}.

Definition with_lightPos (p : vec3) (st : State) : State :=
  {| base := base st; displayShadowMap := displayShadowMap st;
     filterPCF := filterPCF st; zNear := zNear st; zFar := zFar st;
     depthBiasConstant := depthBiasConstant st;
     depthBiasSlope := depthBiasSlope st; lightPos := p;
     lightFOV := lightFOV st; models_quad := models_quad st;
     scenes := scenes st; sceneIndex := sceneIndex st;
     uniforms := uniforms st;
     offscreenPass_width := offscreenPass_width st;
     offscreenPass_height := offscreenPass_height st |}.

Definition with_uniforms (u : Uniforms) (st : State) : State :=
  {| base := base st; displayShadowMap := displayShadowMap st;
     filterPCF := filterPCF st; zNear := zNear st; zFar := zFar st;
     depthBiasConstant := depthBiasConstant st;
     depthBiasSlope := depthBiasSlope st; lightPos := lightPos st;
     lightFOV := lightFOV st; models_quad := models_quad st;
     scenes := scenes st; sceneIndex := sceneIndex st;
     uniforms := u;
     offscreenPass_width := offscreenPass_width st;
     offscreenPass_height := offscreenPass_height st |}.

(** *** buildCommandBuffers *)

Definition bind_model (m : Model) : list (Cmd handles) :=
  [ vkCmdBindVertexBuffers 0 [vertices_buffer m] [0];
    vkCmdBindIndexBuffer (indices_buffer m) 0 VK_INDEX_TYPE_UINT32;
    vkCmdDrawIndexed (indexCount m) 1 0 0 0 ].

(** The commands recorded into draw command buffer [i]; [scenes[sceneIndex]]
    is the scene that is read while recording. *)
Definition recordWith (st : State) (scene : Model) (i : nat)
  : list (Cmd handles) :=
    (* First render pass: shadow map from the light's point of view *)
    [ vkCmdBeginRenderPass
        {| renderPass := offscreenPass_renderPass : hRenderPass handles;
           framebuffer := offscreenPass_frameBuffer : hFramebuffer handles;
           renderArea := Build_Rect2D (offscreenPass_width st) (offscreenPass_height st) 0 0;
           pClearValues := [ ClearDepthStencil (fconst 1) 0 ] |};
      vkCmdSetViewport 0
        [ Build_Viewport (fofint (offscreenPass_width st))
            (fofint (offscreenPass_height st)) (fconst 0) (fconst 1) ];
      vkCmdSetScissor 0
        [ Build_Rect2D (offscreenPass_width st) (offscreenPass_height st) 0 0 ];
      vkCmdSetDepthBias (depthBiasConstant st) (fconst 0) (depthBiasSlope st);
      vkCmdBindPipeline (pipelines_offscreen : hPipeline handles);
      vkCmdBindDescriptorSets (pipelineLayouts_offscreen : hPipelineLayout handles) 0
        [ descriptorSets_offscreen : hDescriptorSet handles ] ]
    ++ bind_model scene
    ++ [ vkCmdEndRenderPass;
         (* Second pass: scene rendering with applied shadow map *)
         vkCmdBeginRenderPass
           {| renderPass := ExampleBase_renderPass : hRenderPass handles;
              framebuffer := ExampleBase_frameBuffers i : hFramebuffer handles;
              renderArea := Build_Rect2D (width (base st)) (height (base st)) 0 0;
              pClearValues :=
                [ defaultClearColor (base st); ClearDepthStencil (fconst 1) 0 ] |};
         vkCmdSetViewport 0
           [ Build_Viewport (fofint (width (base st))) (fofint (height (base st)))
               (fconst 0) (fconst 1) ];
         vkCmdSetScissor 0
           [ Build_Rect2D (width (base st)) (height (base st)) 0 0 ] ]
    (* Visualize shadow map *)
    ++ (if displayShadowMap st then
          [ vkCmdBindDescriptorSets (pipelineLayouts_quad : hPipelineLayout handles) 0
              [ descriptorSet : hDescriptorSet handles ];
            vkCmdBindPipeline (pipelines_quad : hPipeline handles) ]
          ++ bind_model (models_quad st)
        else [])
    (* 3D scene *)
    ++ [ vkCmdBindDescriptorSets (pipelineLayouts_quad : hPipelineLayout handles) 0
           [ descriptorSets_scene : hDescriptorSet handles ];
         vkCmdBindPipeline
           ((if filterPCF st then pipelines_sceneShadowPCF
             else pipelines_sceneShadow) : hPipeline handles) ]
    ++ bind_model scene
    ++ [ drawUI; vkCmdEndRenderPass ].

Definition recordCommands (st : State) (i : nat) : Result (list (Cmd handles)) :=
  let* scene := vector_at (scenes st) (sceneIndex st) in
  Ok (recordWith st scene i).

Definition buildCommandBuffers (dev : Device handles) (st : State)
  : Result State :=
  let* bufs :=
    for_range 0 (length (drawCmdBuffers (base st))) (fun i =>
      check VK_CHECK_RESULT (vkBeginCommandBuffer dev i) in
      let* cmds := recordCommands st i in
      check VK_CHECK_RESULT (vkEndCommandBuffer dev i) in
      Ok cmds) in
  Ok (with_base (with_drawCmdBuffers bufs (base st)) st).

(** *** Light and uniform buffer updates *)

Definition updateLight (st : State) : State :=
  let t := radians (fmul (timer (base st)) (fconst 360)) in
  with_lightPos
    (fmul (fcos t) (fconst 40),
     fadd (fneg (fconst 50)) (fmul (fsin t) (fconst 20)),
     fadd (fconst 25) (fmul (fsin t) (fconst 5))) st.

Definition updateUniformBuffers (st : State) : State :=
  let u := uniforms st in
  let AR := fdiv (fofint (height (base st))) (fofint (width (base st))) in
  let quad :=
    {| quad_projection :=
         glm_ortho (fdiv (fconst 2.5) AR) (fconst 0) (fconst 0) (fconst 2.5)
           (fneg (fconst 1)) (fconst 1);
       quad_model := mat4_diag (fconst 1) |} in
  let '(rx, ry, rz) := rotation (base st) in
  let v0 := glm_translate (mat4_diag (fconst 1))
              (fconst 0, fconst 0, zoom (base st)) in
  let v1 := glm_rotate v0 (radians rx) (fconst 1, fconst 0, fconst 0) in
  let v2 := glm_rotate v1 (radians ry) (fconst 0, fconst 1, fconst 0) in
  let v3 := glm_rotate v2 (radians rz) (fconst 0, fconst 0, fconst 1) in
  let scene :=
    {| projection :=
         glm_perspective (radians (fconst 45))
           (fdiv (fofint (width (base st))) (fofint (height (base st))))
           (zNear st) (zFar st);
       view := v3;
       model := mat4_diag (fconst 1);
       depthBiasMVP := depthMVP (uboOffscreenVS u);
       scene_lightPos := lightPos st |} in
  with_uniforms
    {| uboVSquad := quad;
       uboVSscene := scene;
       uboOffscreenVS := uboOffscreenVS u;
       uniformBuffers_debug_mapped := quad;
       uniformBuffers_scene_mapped := scene;
       uniformBuffers_offscreen_mapped := uniformBuffers_offscreen_mapped u |} st.

Definition updateUniformBufferOffscreen (st : State) : State :=
  let u := uniforms st in
  let depthProjectionMatrix :=
    glm_perspective (radians (lightFOV st)) (fconst 1) (zNear st) (zFar st) in
  let depthViewMatrix :=
    glm_lookAt (lightPos st) (fconst 0, fconst 0, fconst 0)
      (fofint 0, fofint 1, fofint 0) in
  let depthModelMatrix := mat4_diag (fconst 1) in
  let off :=
    {| depthMVP :=
         mat4_mul (mat4_mul depthProjectionMatrix depthViewMatrix)
           depthModelMatrix |} in
  with_uniforms
    {| uboVSquad := uboVSquad u;
       uboVSscene := uboVSscene u;
       uboOffscreenVS := off;
       uniformBuffers_debug_mapped := uniformBuffers_debug_mapped u;
       uniformBuffers_scene_mapped := uniformBuffers_scene_mapped u;
       uniformBuffers_offscreen_mapped := off |} st.

(** *** draw, render and the UI callback *)

Section WithBase.
Variable prepareFrame submitFrame : ExampleBase handles -> Result (ExampleBase handles).

Definition draw (dev : Device handles) (st : State) : Result State :=
  let* b1 := prepareFrame (base st) in
  let* b2 := submit_current dev b1 in
  let* b3 := submitFrame b2 in
  Ok (with_base b3 st).

Definition render (dev : Device handles) (st : State) : Result State :=
  if negb (prepared (base st)) then Ok st
  else
    let* st1 := draw dev st in
    if negb (paused (base st1)) || updated (camera (base st1))
    then Ok (updateUniformBuffers (updateUniformBufferOffscreen (updateLight st1)))
    else Ok st1.
End WithBase.

(** Modelled from the spec: the UI overlay collaborator of section 6; a
    widget field is [Some v] when the widget reports a change and has
    stored [v]. *)
Record UIOverlay := {
  header_Settings : bool;
  comboBox_Scenes : option Z;
  checkBox_DisplayShadowRenderTarget : option bool;
  checkBox_PCFFiltering : option bool;
}.

Definition OnUpdateUIOverlay (dev : Device handles) (overlay : UIOverlay)
    (st : State) : Result State :=
  if header_Settings overlay then
    let* st1 :=
      match comboBox_Scenes overlay with
      | Some v =>
          buildCommandBuffers dev
            (with_selection v (displayShadowMap st) (filterPCF st) st)
      | None => Ok st
      end in
    let* st2 :=
      match checkBox_DisplayShadowRenderTarget overlay with
      | Some v =>
          buildCommandBuffers dev
            (with_selection (sceneIndex st1) v (filterPCF st1) st1)
      | None => Ok st1
      end in
    match checkBox_PCFFiltering overlay with
    | Some v =>
        buildCommandBuffers dev
          (with_selection (sceneIndex st2) (displayShadowMap st2) v st2)
    | None => Ok st2
    end
  else Ok st.

(** *** The resources fixed by the set-up code *)

Definition written_descriptors : list (WriteDescriptorSet handles) :=
  match setupDescriptorSets (okDevice handles) with
  | Ok ws => ws
  | Err _ => []
  end.

Definition resources : Resources :=
  {| framebufferAttachments := fun fb : hFramebuffer handles =>
       match fb with
       | offscreenPass_frameBuffer => prepareOffscreenFramebuffer_attachments
       | ExampleBase_frameBuffers i => [ swapChain_image i; depthStencil_image ]
       end : list (hImage handles);
     descriptorImages := descriptor_table written_descriptors;
     renderPassInfo := fun rp : hRenderPass handles =>
       match rp with
       | offscreenPass_renderPass => Some prepareOffscreenRenderpass_info
       | ExampleBase_renderPass => None
       end;
     isRenderTarget := fun T : hImage handles =>
       match T with
       | offscreenPass_depth => true
       | _ => false
       end |}.
End WithFloat.

End ShadowMapping.

(** ** The PBR basics example *)
Module PbrBasic.

Definition VERTEX_BUFFER_BIND_ID : Z := 0.
Definition GRID_DIM : Z := 7.

Inductive UniformBuffer :=
  | uniformBuffers_object
  | uniformBuffers_params.

Inductive Pipeline := pipeline.
Inductive PipelineLayout := pipelineLayout.
Inductive DescriptorSet := descriptorSet.
Inductive RenderPass := ExampleBase_renderPass.
Inductive Framebuffer := ExampleBase_frameBuffers (i : nat).

Inductive Image :=
  | swapChain_image (i : nat)
  | depthStencil_image.

Definition handles : Handles :=
  {| hUniformBuffer := UniformBuffer;
     hPipeline := Pipeline;
     hPipelineLayout := PipelineLayout;
     hDescriptorSet := DescriptorSet;
     hRenderPass := RenderPass;
     hFramebuffer := Framebuffer;
     hImage := Image |}.

Section WithFloat.
Context {F : FloatOps}.

(** Material::PushBlock and Material. *)
Record PushBlock := {
  roughness : float;
  metallic : float;
  r : float;
  g : float;
  b : float;
}.

Record Material := {
  params : PushBlock;
  name : string;
}.

Record UBOMatrices := {
  projection : mat4;
  model : mat4;
  view : mat4;
  camPos : vec3;
}.

Record UBOParams := {
  lights : list vec4;
}.

Record Uniforms := {
  uboMatrices : UBOMatrices;
  uboParams : UBOParams;
  uniformBuffers_object_mapped : UBOMatrices;
  uniformBuffers_params_mapped : UBOParams;
}.

Record State := {
  base : ExampleBase handles;
  models_objects : list Model;
  models_objectIndex : Z;
  materials : list Material;
  materialIndex : Z;
  uniforms : Uniforms;
}.

Definition with_base (b0 : ExampleBase handles) (st : State) : State :=
  {| base := b0; models_objects := models_objects st;
     models_objectIndex := models_objectIndex st;
     materials := materials st; materialIndex := materialIndex st;
     uniforms := uniforms st |}.

Definition with_selection (obj mat : Z) (st : State) : State :=
  {| base := base st; models_objects := models_objects st;
     models_objectIndex := obj;
     materials := materials st; materialIndex := mat;
     uniforms := uniforms st |}.

Definition with_uniforms (u : Uniforms) (st : State) : State :=
  {| base := base st; models_objects := models_objects st;
     models_objectIndex := models_objectIndex st;
     materials := materials st; materialIndex := materialIndex st;
     uniforms := u |}.

(** *** buildCommandBuffers *)

(** One cell of the grid: the two push-constant updates and the draw. *)
Definition grid_cell (object : Model) (mat : Material) (x y : Z)
  : list (Cmd handles) :=
  let half := fdiv (fofint GRID_DIM) (fconst 2) in
  let pos : vec3 :=
    (fmul (fsub (fofint x) half) (fconst 2.5),
     fconst 0,
     fmul (fsub (fofint y) half) (fconst 2.5)) in
  let m := clamp (fdiv (fofint x) (fofint (GRID_DIM - 1))) (fconst 0.1) (fconst 1) in
  let ro := clamp (fdiv (fofint y) (fofint (GRID_DIM - 1))) (fconst 0.05) (fconst 1) in
  [ vkCmdPushConstants (pipelineLayout : hPipelineLayout handles)
      VK_SHADER_STAGE_VERTEX_BIT 0 12 [ pos.1.1; pos.1.2; pos.2 ];
    vkCmdPushConstants (pipelineLayout : hPipelineLayout handles)
      VK_SHADER_STAGE_FRAGMENT_BIT 12 20
      [ ro; m; r (params mat); g (params mat); b (params mat) ];
    vkCmdDrawIndexed (indexCount object) 1 0 0 0 ].

Definition grid (object : Model) (mat : Material) : list (Cmd handles) :=
  let dim := seq 0 (Z.to_nat GRID_DIM) in
  concat ((fun y : nat =>
             concat ((fun x : nat => grid_cell object mat (Z.of_nat x) (Z.of_nat y))
                       <$> dim)) <$> dim).

Definition recordWith (st : State) (object : Model) (mat : Material) (i : nat)
  : list (Cmd handles) :=
      [ vkCmdBeginRenderPass
          {| renderPass := ExampleBase_renderPass : hRenderPass handles;
             framebuffer := ExampleBase_frameBuffers i : hFramebuffer handles;
             renderArea := Build_Rect2D (width (base st)) (height (base st)) 0 0;
             pClearValues :=
               [ defaultClearColor (base st); ClearDepthStencil (fconst 1) 0 ] |};
        vkCmdSetViewport 0
          [ Build_Viewport (fofint (width (base st))) (fofint (height (base st)))
              (fconst 0) (fconst 1) ];
        vkCmdSetScissor 0
          [ Build_Rect2D (width (base st)) (height (base st)) 0 0 ];
        (* Objects *)
        vkCmdBindPipeline (pipeline : hPipeline handles);
        vkCmdBindDescriptorSets (pipelineLayout : hPipelineLayout handles) 0
          [ descriptorSet : hDescriptorSet handles ];
        vkCmdBindVertexBuffers VERTEX_BUFFER_BIND_ID [vertices_buffer object] [0];
        vkCmdBindIndexBuffer (indices_buffer object) 0 VK_INDEX_TYPE_UINT32 ]
      ++ grid object mat
      ++ [ drawUI; vkCmdEndRenderPass ].

Definition recordCommands (st : State) (i : nat) : Result (list (Cmd handles)) :=
  let* object := vector_at (models_objects st) (models_objectIndex st) in
  let* mat := vector_at (materials st) (materialIndex st) in
  Ok (recordWith st object mat i).

Definition buildCommandBuffers (dev : Device handles) (st : State)
  : Result State :=
  let* bufs :=
    for_range 0 (length (drawCmdBuffers (base st))) (fun i =>
      check VK_CHECK_RESULT (vkBeginCommandBuffer dev i) in
      let* cmds := recordCommands st i in
      check VK_CHECK_RESULT (vkEndCommandBuffer dev i) in
      Ok cmds) in
  Ok (with_base (with_drawCmdBuffers bufs (base st)) st).

(** *** Uniform buffer updates *)

Definition updateUniformBuffers (st : State) : State :=
  let u := uniforms st in
  let m :=
    {| projection := matrices_perspective (camera (base st));
       view := matrices_view (camera (base st));
       model :=
         glm_rotate (mat4_diag (fconst 1))
           (radians (fadd (fneg (fconst 90))
                       (if models_objectIndex st =? 1 then fconst 45 else fconst 0)))
           (fconst 0, fconst 1, fconst 0);
       camPos := vec3_scale (position (camera (base st))) (fneg (fconst 1)) |} in
  with_uniforms
    {| uboMatrices := m; uboParams := uboParams u;
       uniformBuffers_object_mapped := m;
       uniformBuffers_params_mapped := uniformBuffers_params_mapped u |} st.

Definition updateLights (st : State) : State :=
  let u := uniforms st in
  let p := fconst 15 in
  let h := fmul (fneg p) (fconst 0.5) in
  let t := radians (fmul (timer (base st)) (fconst 360)) in
  let l0 : vec4 := (fneg p, h, fneg p, fconst 1) in
  let l1 : vec4 := (fneg p, h, p, fconst 1) in
  let l2 : vec4 := (p, h, p, fconst 1) in
  let l3 : vec4 := (p, h, fneg p, fconst 1) in
  let l0' : vec4 :=
    if negb (paused (base st))
    then (fmul (fsin t) (fconst 20), h, fmul (fcos t) (fconst 20), fconst 1)
    else l0 in
  let l1' : vec4 :=
    if negb (paused (base st))
    then (fmul (fcos t) (fconst 20), fmul (fsin t) (fconst 20), p, fconst 1)
    else l1 in
  let ps := {| lights := [ l0'; l1'; l2; l3 ] |} in
  with_uniforms
    {| uboMatrices := uboMatrices u; uboParams := ps;
       uniformBuffers_object_mapped := uniformBuffers_object_mapped u;
       uniformBuffers_params_mapped := ps |} st.

(** *** draw, render and the callbacks *)

Section WithBase.
Variable prepareFrame submitFrame : ExampleBase handles -> Result (ExampleBase handles).

Definition draw (dev : Device handles) (st : State) : Result State :=
  let* b1 := prepareFrame (base st) in
  let* b2 := submit_current dev b1 in
  let* b3 := submitFrame b2 in
  Ok (with_base b3 st).

Definition render (dev : Device handles) (st : State) : Result State :=
  if negb (prepared (base st)) then Ok st
  else
    let* st1 := draw dev st in
    if negb (paused (base st1)) then Ok (updateLights st1) else Ok st1.
End WithBase.

Definition viewChanged (st : State) : State := updateUniformBuffers st.

(** Modelled from the spec: the UI overlay collaborator of section 6; a
    widget field is [Some v] when the widget reports a change and has
    stored [v]. *)
Record UIOverlay := {
  header_Settings : bool;
  comboBox_Material : option Z;
  comboBox_ObjectType : option Z;
}.

Definition OnUpdateUIOverlay (dev : Device handles) (overlay : UIOverlay)
    (st : State) : Result State :=
  if header_Settings overlay then
    let* st1 :=
      match comboBox_Material overlay with
      | Some v => buildCommandBuffers dev (with_selection (models_objectIndex st) v st)
      | None => Ok st
      end in
    match comboBox_ObjectType overlay with
    | Some v =>
        buildCommandBuffers dev
          (updateUniformBuffers (with_selection v (materialIndex st1) st1))
    | None => Ok st1
    end
  else Ok st.
End WithFloat.

End PbrBasic.

(** ** The screenshot example *)
Module Screenshot.

Inductive UniformBuffer := uniformBuffer.
Inductive Pipeline := pipeline.
Inductive PipelineLayout := pipelineLayout.
Inductive DescriptorSet := descriptorSet.
Inductive RenderPass := ExampleBase_renderPass.
Inductive Framebuffer := ExampleBase_frameBuffers (i : nat).

Inductive Image :=
  | swapChain_image (i : nat)
  | depthStencil_image.

Definition handles : Handles :=
  {| hUniformBuffer := UniformBuffer;
     hPipeline := Pipeline;
     hPipelineLayout := PipelineLayout;
     hDescriptorSet := DescriptorSet;
     hRenderPass := RenderPass;
     hFramebuffer := Framebuffer;
     hImage := Image |}.

Section WithFloat.
Context {F : FloatOps}.

Record UBOVS := {
  projection : mat4;
  model : mat4;
  view : mat4;
  texIndex : Z;
}.

Record State := {
  base : ExampleBase handles;
  scene_model : Model;
  uboVS : UBOVS;
  uniformBuffer_mapped : UBOVS;
  screenshotSaved : bool;
}.

Definition with_base (b : ExampleBase handles) (st : State) : State :=
  {| base := b; scene_model := scene_model st; uboVS := uboVS st;
     uniformBuffer_mapped := uniformBuffer_mapped st;
     screenshotSaved := screenshotSaved st |}.

Definition recordCommands (st : State) (i : nat) : list (Cmd handles) :=
  [ vkCmdBeginRenderPass
      {| renderPass := ExampleBase_renderPass : hRenderPass handles;
         framebuffer := ExampleBase_frameBuffers i : hFramebuffer handles;
         renderArea := Build_Rect2D (width (base st)) (height (base st)) 0 0;
         pClearValues :=
           [ defaultClearColor (base st); ClearDepthStencil (fconst 1) 0 ] |};
    vkCmdSetViewport 0
      [ Build_Viewport (fofint (width (base st))) (fofint (height (base st)))
          (fconst 0) (fconst 1) ];
    vkCmdSetScissor 0
      [ Build_Rect2D (width (base st)) (height (base st)) 0 0 ];
    vkCmdBindDescriptorSets (pipelineLayout : hPipelineLayout handles) 0
      [ descriptorSet : hDescriptorSet handles ];
    vkCmdBindPipeline (pipeline : hPipeline handles);
    vkCmdBindVertexBuffers 0 [vertices_buffer (scene_model st)] [0];
    vkCmdBindIndexBuffer (indices_buffer (scene_model st)) 0 VK_INDEX_TYPE_UINT32;
    vkCmdDrawIndexed (indexCount (scene_model st)) 1 0 0 0;
    drawUI;
    vkCmdEndRenderPass ].

Definition buildCommandBuffers (dev : Device handles) (st : State)
  : Result State :=
  let* bufs :=
    for_range 0 (length (drawCmdBuffers (base st))) (fun i =>
      check VK_CHECK_RESULT (vkBeginCommandBuffer dev i) in
      let cmds := recordCommands st i in
      check VK_CHECK_RESULT (vkEndCommandBuffer dev i) in
      Ok cmds) in
  Ok (with_base (with_drawCmdBuffers bufs (base st)) st).

Section WithBase.
Variable prepareFrame submitFrame : ExampleBase handles -> Result (ExampleBase handles).

Definition draw (dev : Device handles) (st : State) : Result State :=
  let* b1 := prepareFrame (base st) in
  let* b2 := submit_current dev b1 in
  let* b3 := submitFrame b2 in
  Ok (with_base b3 st).

Definition render (dev : Device handles) (st : State) : Result State :=
  if negb (prepared (base st)) then Ok st
  else draw dev st.
End WithBase.
End WithFloat.

End Screenshot.

(** ** The offscreen shadow-mapping example (separate offscreen command buffer) *)
Module OffscreenShadowMapping.

Definition VERTEX_BUFFER_BIND_ID : Z := 0.

Inductive UniformBuffer :=
  | uniformDataVS
  | uniformDataOffscreenVS
  | uniformData_scene.

Inductive Pipeline :=
  | pipelines_quad
  | pipelines_offscreen
  | pipelines_scene.

Inductive PipelineLayout :=
  | pipelineLayouts_quad
  | pipelineLayouts_offscreen.

Inductive DescriptorSet :=
  | descriptorSets_offscreen
  | descriptorSets_scene
  | descriptorSet.

Inductive RenderPass :=
  | offscreen_renderPass
  | ExampleBase_renderPass.

Inductive Framebuffer :=
  | offscreen_framebuffers (k : nat)
  | ExampleBase_framebuffers (i : nat).

Inductive Image :=
  | framebuffers_color (k : nat)
  | framebuffers_depth (k : nat)
  | swapChain_image (i : nat)
  | depthStencil_image.

#[global] Instance Image_eq_dec : EqDecision Image.
Proof. solve_decision. Defined.

#[global] Instance DescriptorSet_eq_dec : EqDecision DescriptorSet.
Proof. solve_decision. Defined.

Definition handles : Handles :=
  {| hUniformBuffer := UniformBuffer;
     hPipeline := Pipeline;
     hPipelineLayout := PipelineLayout;
     hDescriptorSet := DescriptorSet;
     hRenderPass := RenderPass;
     hFramebuffer := Framebuffer;
     hImage := Image |}.

#[global] Instance hImage_eq_dec : EqDecision (hImage handles) := Image_eq_dec.

(** The settings of the offscreen base that prepare() fixes before it
    calls OffscreenExampleBase::prepare. *)
Record OffscreenSettings := {
  size : Z;
  depthFormat : VkFormat;
  depthFinalLayout : VkImageLayout;
  colorFinalLayout : VkImageLayout;
}.

Definition prepare_offscreen : OffscreenSettings :=
  {| size := 2048;
     depthFormat := VK_FORMAT_D16_UNORM;
     depthFinalLayout := VK_IMAGE_LAYOUT_SHADER_READ_ONLY_OPTIMAL;
     colorFinalLayout := VK_IMAGE_LAYOUT_COLOR_ATTACHMENT_OPTIMAL |}.

Definition write_buffer (s : DescriptorSet) (b : Z) (u : UniformBuffer)
  : WriteDescriptorSet handles :=
  {| dstSet := s : hDescriptorSet handles;
     descriptorType := eUniformBuffer;
     dstBinding := b;
     pBufferInfo := Some (u : hUniformBuffer handles);
     pImageInfo := None |}.

Definition write_image (s : DescriptorSet) (b : Z)
    (d : DescriptorImageInfo handles) : WriteDescriptorSet handles :=
  {| dstSet := s : hDescriptorSet handles;
     descriptorType := eCombinedImageSampler;
     dstBinding := b;
     pBufferInfo := None;
     pImageInfo := Some d |}.

(** setupDescriptorSets; device.allocateDescriptorSets throws on failure. *)
Definition setupDescriptorSets (dev : Device handles)
  : Result (list (WriteDescriptorSet handles)) :=
  check VK_CHECK_RESULT (vkAllocateDescriptorSets dev descriptorSet) in
  let texDescriptor : DescriptorImageInfo handles :=
    {| imageView := framebuffers_depth 0 : hImage handles;
       imageLayout := VK_IMAGE_LAYOUT_GENERAL |} in
  let w1 :=
    [ write_buffer descriptorSet 0 uniformDataVS;
      write_image descriptorSet 1 texDescriptor ] in
  check VK_CHECK_RESULT (vkAllocateDescriptorSets dev descriptorSets_offscreen) in
  let w2 := [ write_buffer descriptorSets_offscreen 0 uniformDataOffscreenVS ] in
  check VK_CHECK_RESULT (vkAllocateDescriptorSets dev descriptorSets_scene) in
  let texDescriptor' : DescriptorImageInfo handles :=
    {| imageView := framebuffers_depth 0 : hImage handles;
       imageLayout := imageLayout texDescriptor |} in
  let w3 :=
    [ write_buffer descriptorSets_scene 0 uniformData_scene;
      write_image descriptorSets_scene 1 texDescriptor' ] in
  Ok (w1 ++ w2 ++ w3).

Section WithFloat.
Context {F : FloatOps}.

Record State := {
  displayShadowMap : bool;
  lightPOV : bool;
  depthBiasConstant : float;
  depthBiasSlope : float;
  meshes_scene : Model;
  meshes_quad : Model;
  offscreen_size : Z;
  size_width : Z;
  size_height : Z;
}.

(** The content recorded into offscreen.cmdBuffer. *)
Definition buildOffscreenCommandBuffer (st : State) : list (Cmd handles) :=
  [ vkCmdSetViewport 0
      [ Build_Viewport (fofint (offscreen_size st)) (fofint (offscreen_size st))
          (fconst 0) (fconst 1) ];
    vkCmdSetScissor 0
      [ Build_Rect2D (offscreen_size st) (offscreen_size st) 0 0 ];
    vkCmdSetDepthBias (depthBiasConstant st) (fconst 0) (depthBiasSlope st);
    vkCmdBeginRenderPass
      {| renderPass := offscreen_renderPass : hRenderPass handles;
         framebuffer := offscreen_framebuffers 0 : hFramebuffer handles;
         renderArea := Build_Rect2D (offscreen_size st) (offscreen_size st) 0 0;
         pClearValues :=
           [ ClearColor (fconst 0) (fconst 0) (fconst 0) (fconst 1);
             ClearDepthStencil (fconst 1) 0 ] |};
    vkCmdBindPipeline (pipelines_offscreen : hPipeline handles);
    vkCmdBindDescriptorSets (pipelineLayouts_offscreen : hPipelineLayout handles) 0
      [ descriptorSets_offscreen : hDescriptorSet handles ];
    vkCmdBindVertexBuffers VERTEX_BUFFER_BIND_ID [vertices_buffer (meshes_scene st)] [0];
    vkCmdBindIndexBuffer (indices_buffer (meshes_scene st)) 0 VK_INDEX_TYPE_UINT32;
    vkCmdDrawIndexed (indexCount (meshes_scene st)) 1 0 0 0;
    vkCmdEndRenderPass ].

(** The commands that updateDrawCommandBuffer adds to a draw command
    buffer (inside the render pass begun by the example base). *)
Definition updateDrawCommandBuffer (st : State) : list (Cmd handles) :=
  [ vkCmdSetViewport 0
      [ Build_Viewport (fofint (size_width st)) (fofint (size_height st))
          (fconst 0) (fconst 1) ];
    vkCmdSetScissor 0 [ Build_Rect2D (size_width st) (size_height st) 0 0 ];
    vkCmdBindDescriptorSets (pipelineLayouts_quad : hPipelineLayout handles) 0
      [ descriptorSet : hDescriptorSet handles ];
    vkCmdBindPipeline (pipelines_quad : hPipeline handles) ]
  (* Visualize shadow map *)
  ++ (if displayShadowMap st then
        [ vkCmdBindVertexBuffers VERTEX_BUFFER_BIND_ID
            [vertices_buffer (meshes_quad st)] [0];
          vkCmdBindIndexBuffer (indices_buffer (meshes_quad st)) 0 VK_INDEX_TYPE_UINT32;
          vkCmdDrawIndexed (indexCount (meshes_quad st)) 1 0 0 0 ]
      else [])
  (* 3D scene *)
  ++ [ vkCmdBindDescriptorSets (pipelineLayouts_quad : hPipelineLayout handles) 0
         [ descriptorSets_scene : hDescriptorSet handles ];
       vkCmdBindPipeline (pipelines_scene : hPipeline handles);
       vkCmdBindVertexBuffers VERTEX_BUFFER_BIND_ID
         [vertices_buffer (meshes_scene st)] [0];
       vkCmdBindIndexBuffer (indices_buffer (meshes_scene st)) 0 VK_INDEX_TYPE_UINT32;
       vkCmdDrawIndexed (indexCount (meshes_scene st)) 1 0 0 0 ].
End WithFloat.

End OffscreenShadowMapping.

(** ** Registration of reads and cross-pass layouts, per example *)
Section Registration.
Context {F : FloatOps}.

Definition Bloom_cross_pass_layouts (fbDepthFormat : VkFormat)
  : list (hImage Bloom.handles * option VkImageLayout * VkImageLayout) :=
  cross_pass_layouts (Bloom.resources fbDepthFormat)
    [ (Bloom.offscreenPass_framebuffers 0 : hFramebuffer Bloom.handles,
       Bloom.offscreenPass_renderPass : hRenderPass Bloom.handles);
      (Bloom.offscreenPass_framebuffers 1 : hFramebuffer Bloom.handles,
       Bloom.offscreenPass_renderPass : hRenderPass Bloom.handles) ]
    [ Bloom.descriptorSets_blurVert : hDescriptorSet Bloom.handles;
      Bloom.descriptorSets_blurHorz : hDescriptorSet Bloom.handles;
      Bloom.descriptorSets_scene : hDescriptorSet Bloom.handles;
      Bloom.descriptorSets_skyBox : hDescriptorSet Bloom.handles ].

Definition Shadow_cross_pass_layouts
  : list (hImage ShadowMapping.handles * option VkImageLayout * VkImageLayout) :=
  cross_pass_layouts ShadowMapping.resources
    [ (ShadowMapping.offscreenPass_frameBuffer : hFramebuffer ShadowMapping.handles,
       ShadowMapping.offscreenPass_renderPass : hRenderPass ShadowMapping.handles) ]
    [ ShadowMapping.descriptorSet : hDescriptorSet ShadowMapping.handles;
      ShadowMapping.descriptorSets_offscreen : hDescriptorSet ShadowMapping.handles;
      ShadowMapping.descriptorSets_scene : hDescriptorSet ShadowMapping.handles ].

(** The claim that every consumed render target ends in shader-read-only, in
    every example, as a statement about the three examples with an offscreen
    target. *)
Definition every_consumed_target_ends_shader_read_only : Prop :=
  (forall fmt x, x ∈ Bloom_cross_pass_layouts fmt ->
     x.1.2 = Some VK_IMAGE_LAYOUT_SHADER_READ_ONLY_OPTIMAL) /\
  (forall x, x ∈ Shadow_cross_pass_layouts ->
     x.1.2 = Some VK_IMAGE_LAYOUT_SHADER_READ_ONLY_OPTIMAL) /\
  OffscreenShadowMapping.depthFinalLayout OffscreenShadowMapping.prepare_offscreen
  = VK_IMAGE_LAYOUT_SHADER_READ_ONLY_OPTIMAL.

(** The render targets whose read the descriptor writes of the bloom example
    register. *)
Definition Bloom_declared_reads (ws : list (WriteDescriptorSet Bloom.handles))
  : list (hImage Bloom.handles) :=
  filter (fun T => isRenderTarget (Bloom.resources VK_FORMAT_D16_UNORM) T = true)
    (omap (fun w => imageView <$> pImageInfo w) ws).

(** The claim about declarePass read on the code that registers the reads:
    whenever setupDescriptorSet registers the read of a render target that no
    pass of the current frame sequence writes, it fails with
    ConfigurationError. *)
Definition registration_rejects_dangling_reads : Prop :=
  forall (dev : Device Bloom.handles) (cubemapLayout : VkImageLayout)
         (st : Bloom.State) (i : nat) (T : hImage Bloom.handles),
    T ∈ Bloom_declared_reads Bloom.written_descriptors ->
    writers (Bloom.resources VK_FORMAT_D16_UNORM) T
      (passes (Bloom.recordCommands st i)) = [] ->
    Bloom.setupDescriptorSet dev cubemapLayout = Err ConfigurationError.
End Registration.

(** ** What a recording depends on *)

Definition result_map {A B} (f : A -> B) (m : Result A) : Result B :=
  match m with
  | Ok a => Ok (f a)
  | Err e => Err e
  end.

Section RecordingInputs.
Context {F : FloatOps}.

(** Two states of the bloom example that differ at most in the continuous
    scene state (camera, timer, camera position, the uniform blocks with the
    blur parameters, the mapped uniform memory), in the flags of the base and
    in what is already recorded or submitted. *)
Definition Bloom_same_discrete_state (st1 st2 : Bloom.State) : Prop :=
  Bloom.bloom st1 = Bloom.bloom st2 /\
  Bloom.models_ufo st1 = Bloom.models_ufo st2 /\
  Bloom.models_ufoGlow st1 = Bloom.models_ufoGlow st2 /\
  Bloom.models_skyBox st1 = Bloom.models_skyBox st2 /\
  Bloom.offscreenPass_width st1 = Bloom.offscreenPass_width st2 /\
  Bloom.offscreenPass_height st1 = Bloom.offscreenPass_height st2 /\
  width (Bloom.base st1) = width (Bloom.base st2) /\
  height (Bloom.base st1) = height (Bloom.base st2) /\
  defaultClearColor (Bloom.base st1) = defaultClearColor (Bloom.base st2) /\
  length (drawCmdBuffers (Bloom.base st1)) = length (drawCmdBuffers (Bloom.base st2)).

(** A state of the bloom example after an update that wrote uniform data
    only: every member but the uniform blocks and the mapped uniform memory
    is unchanged. *)
Definition Bloom_only_uniforms_written (st st' : Bloom.State) : Prop :=
  Bloom.base st' = Bloom.base st /\
  Bloom.bloom st' = Bloom.bloom st /\
  Bloom.models_ufo st' = Bloom.models_ufo st /\
  Bloom.models_ufoGlow st' = Bloom.models_ufoGlow st /\
  Bloom.models_skyBox st' = Bloom.models_skyBox st /\
  Bloom.offscreenPass_width st' = Bloom.offscreenPass_width st /\
  Bloom.offscreenPass_height st' = Bloom.offscreenPass_height st.

Definition Pbr_same_discrete_state (st1 st2 : PbrBasic.State) : Prop :=
  PbrBasic.models_objects st1 = PbrBasic.models_objects st2 /\
  PbrBasic.models_objectIndex st1 = PbrBasic.models_objectIndex st2 /\
  PbrBasic.materials st1 = PbrBasic.materials st2 /\
  PbrBasic.materialIndex st1 = PbrBasic.materialIndex st2 /\
  width (PbrBasic.base st1) = width (PbrBasic.base st2) /\
  height (PbrBasic.base st1) = height (PbrBasic.base st2) /\
  defaultClearColor (PbrBasic.base st1) = defaultClearColor (PbrBasic.base st2) /\
  length (drawCmdBuffers (PbrBasic.base st1))
    = length (drawCmdBuffers (PbrBasic.base st2)).

Definition Pbr_only_uniforms_written (st st' : PbrBasic.State) : Prop :=
  PbrBasic.base st' = PbrBasic.base st /\
  PbrBasic.models_objects st' = PbrBasic.models_objects st /\
  PbrBasic.models_objectIndex st' = PbrBasic.models_objectIndex st /\
  PbrBasic.materials st' = PbrBasic.materials st /\
  PbrBasic.materialIndex st' = PbrBasic.materialIndex st.

(** For the shadow-mapping example the light position is part of the
    continuous scene state as well. *)
Definition Shadow_same_discrete_state (st1 st2 : ShadowMapping.State) : Prop :=
  ShadowMapping.displayShadowMap st1 = ShadowMapping.displayShadowMap st2 /\
  ShadowMapping.filterPCF st1 = ShadowMapping.filterPCF st2 /\
  ShadowMapping.sceneIndex st1 = ShadowMapping.sceneIndex st2 /\
  ShadowMapping.scenes st1 = ShadowMapping.scenes st2 /\
  ShadowMapping.models_quad st1 = ShadowMapping.models_quad st2 /\
  ShadowMapping.depthBiasConstant st1 = ShadowMapping.depthBiasConstant st2 /\
  ShadowMapping.depthBiasSlope st1 = ShadowMapping.depthBiasSlope st2 /\
  ShadowMapping.offscreenPass_width st1 = ShadowMapping.offscreenPass_width st2 /\
  ShadowMapping.offscreenPass_height st1 = ShadowMapping.offscreenPass_height st2 /\
  width (ShadowMapping.base st1) = width (ShadowMapping.base st2) /\
  height (ShadowMapping.base st1) = height (ShadowMapping.base st2) /\
  defaultClearColor (ShadowMapping.base st1) = defaultClearColor (ShadowMapping.base st2) /\
  length (drawCmdBuffers (ShadowMapping.base st1))
    = length (drawCmdBuffers (ShadowMapping.base st2)).

(** The command sequences a call of buildCommandBuffers leaves recorded. *)
Definition Bloom_recorded (dev : Device Bloom.handles) (st : Bloom.State)
  : Result (list (CommandBuffer Bloom.handles)) :=
  result_map (fun st' => drawCmdBuffers (Bloom.base st'))
    (Bloom.buildCommandBuffers dev st).

Definition Pbr_recorded (dev : Device PbrBasic.handles) (st : PbrBasic.State)
  : Result (list (CommandBuffer PbrBasic.handles)) :=
  result_map (fun st' => drawCmdBuffers (PbrBasic.base st'))
    (PbrBasic.buildCommandBuffers dev st).

Definition Shadow_recorded (dev : Device ShadowMapping.handles)
    (st : ShadowMapping.State) : Result (list (CommandBuffer ShadowMapping.handles)) :=
  result_map (fun st' => drawCmdBuffers (ShadowMapping.base st'))
    (ShadowMapping.buildCommandBuffers dev st).
End RecordingInputs.

(** ** Concrete inputs

    An instance of the floating-point interface over the rationals, and one
    state per example, used to run the definitions. *)
Module Samples.

Definition rational_floats : FloatOps :=
  {| float := Q;
     fconst := fun q => q;
     fofint := inject_Z;
     fadd := Qplus;
     fsub := Qminus;
     fmul := Qmult;
     fdiv := Qdiv;
     fneg := Qopp;
     fsin := fun x => x;
     fcos := fun _ => 1%Q;
     radians := fun x => Qmult x (Qmake 355 (113 * 180));
     clamp := fun x lo hi =>
       if Qle_bool x lo then lo else if Qle_bool hi x then hi else x;
     mat4 := list Q;
     mat4_diag := fun x => [x; x; x; x];
     mat4_of_mat3 := fun m => take 3 m;
     mat4_mul := fun a b => zip_with Qmult a b;
     glm_translate := fun m v => m ++ [v.1.1; v.1.2; v.2];
     glm_rotate := fun m a v => a :: m;
     glm_perspective := fun a b c d => [a; b; c; d];
     glm_ortho := fun a b c d e f => [a; b; c; d; e; f];
     glm_lookAt := fun a b c => [a.1.1; b.1.1; c.1.1] |}.

#[local] Existing Instance rational_floats.

Definition a_camera : Camera :=
  {| matrices_perspective := [1%Q]; matrices_view := [1%Q];
     position := (0%Q, 0%Q, 0%Q); updated := false |}.

Definition a_base_at (H : Handles) (is_prepared : bool) (t : Q) : ExampleBase H :=
  {| prepared := is_prepared; paused := false; camera := a_camera;
     timer := t; cameraPos := (0%Q, 0%Q, 0%Q); zoom := (-20)%Q;
     rotation := (0%Q, 0%Q, 0%Q); width := 1280; height := 720;
     defaultClearColor := ClearColor 0%Q 0%Q 0%Q 1%Q;
     drawCmdBuffers := [ []; [] ];
     currentBuffer := 0; submitted := [] |}.

Definition a_base (H : Handles) (is_prepared : bool) : ExampleBase H :=
  a_base_at H is_prepared 0%Q.

Definition a_model (n : Z) : Model :=
  {| vertices_buffer := n; indices_buffer := n + 1; indexCount := 36 |}.

Definition bloom_state (is_prepared enabled : bool) : Bloom.State :=
  let u := {| Bloom.projection := []; Bloom.view := []; Bloom.model := [] |} in
  let bp := {| Bloom.blurScale := 1%Q; Bloom.blurStrength := 1.5%Q |} in
  {| Bloom.base := a_base Bloom.handles is_prepared;
     Bloom.bloom := enabled;
     Bloom.models_ufo := a_model 10;
     Bloom.models_ufoGlow := a_model 20;
     Bloom.models_skyBox := a_model 30;
     Bloom.ubos_scene := u; Bloom.ubos_skyBox := u; Bloom.ubos_blurParams := bp;
     Bloom.uniformBuffers_scene_mapped := u;
     Bloom.uniformBuffers_skyBox_mapped := u;
     Bloom.uniformBuffers_blurParams_mapped := bp;
     Bloom.offscreenPass_width := Bloom.FB_DIM;
     Bloom.offscreenPass_height := Bloom.FB_DIM |}.

Definition shadow_state (is_prepared dsm pcf : bool) (idx : Z)
  : ShadowMapping.State :=
  let q := {| ShadowMapping.quad_projection := []; ShadowMapping.quad_model := [] |} in
  let sc := {| ShadowMapping.projection := []; ShadowMapping.view := [];
               ShadowMapping.model := []; ShadowMapping.depthBiasMVP := [];
               ShadowMapping.scene_lightPos := (0%Q, 0%Q, 0%Q) |} in
  let off := {| ShadowMapping.depthMVP := [] |} in
  {| ShadowMapping.base := a_base ShadowMapping.handles is_prepared;
     ShadowMapping.displayShadowMap := dsm;
     ShadowMapping.filterPCF := pcf;
     ShadowMapping.zNear := 1%Q; ShadowMapping.zFar := 96%Q;
     ShadowMapping.depthBiasConstant := 1.25%Q;
     ShadowMapping.depthBiasSlope := 1.75%Q;
     ShadowMapping.lightPos := (0%Q, 0%Q, 0%Q);
     ShadowMapping.lightFOV := 45%Q;
     ShadowMapping.models_quad := a_model 10;
     ShadowMapping.scenes := [ a_model 20; a_model 30 ];
     ShadowMapping.sceneIndex := idx;
     ShadowMapping.uniforms :=
       {| ShadowMapping.uboVSquad := q; ShadowMapping.uboVSscene := sc;
          ShadowMapping.uboOffscreenVS := off;
          ShadowMapping.uniformBuffers_debug_mapped := q;
          ShadowMapping.uniformBuffers_scene_mapped := sc;
          ShadowMapping.uniformBuffers_offscreen_mapped := off |};
     ShadowMapping.offscreenPass_width := ShadowMapping.SHADOWMAP_DIM;
     ShadowMapping.offscreenPass_height := ShadowMapping.SHADOWMAP_DIM |}.

Definition pbr_state (is_prepared : bool) (obj mat : Z) : PbrBasic.State :=
  let m := {| PbrBasic.projection := []; PbrBasic.model := [];
              PbrBasic.view := []; PbrBasic.camPos := (0%Q, 0%Q, 0%Q) |} in
  let ps := {| PbrBasic.lights := [] |} in
  {| PbrBasic.base := a_base PbrBasic.handles is_prepared;
     PbrBasic.models_objects := [ a_model 10; a_model 20; a_model 30; a_model 40 ];
     PbrBasic.models_objectIndex := obj;
     PbrBasic.materials :=
       [ {| PbrBasic.params :=
              {| PbrBasic.roughness := 0.1%Q; PbrBasic.metallic := 1%Q;
                 PbrBasic.r := 1%Q; PbrBasic.g := 0.765557%Q;
                 PbrBasic.b := 0.336057%Q |};
            PbrBasic.name := "Gold" |} ];
     PbrBasic.materialIndex := mat;
     PbrBasic.uniforms :=
       {| PbrBasic.uboMatrices := m; PbrBasic.uboParams := ps;
          PbrBasic.uniformBuffers_object_mapped := m;
          PbrBasic.uniformBuffers_params_mapped := ps |} |}.

Definition screenshot_state (is_prepared : bool) : Screenshot.State :=
  let u := {| Screenshot.projection := []; Screenshot.model := [];
              Screenshot.view := []; Screenshot.texIndex := 0 |} in
  {| Screenshot.base := a_base Screenshot.handles is_prepared;
     Screenshot.scene_model := a_model 10;
     Screenshot.uboVS := u;
     Screenshot.uniformBuffer_mapped := u;
     Screenshot.screenshotSaved := false |}.

Definition offscreen_state (dsm : bool) : OffscreenShadowMapping.State :=
  {| OffscreenShadowMapping.displayShadowMap := dsm;
     OffscreenShadowMapping.lightPOV := false;
     OffscreenShadowMapping.depthBiasConstant := 1.25%Q;
     OffscreenShadowMapping.depthBiasSlope := 1.75%Q;
     OffscreenShadowMapping.meshes_scene := a_model 10;
     OffscreenShadowMapping.meshes_quad := a_model 20;
     OffscreenShadowMapping.offscreen_size := 2048;
     OffscreenShadowMapping.size_width := 1280;
     OffscreenShadowMapping.size_height := 720 |}.

(** The same examples a quarter of a turn of the timer later, after the
    per-frame updates. *)
Definition later_bloom_state : Bloom.State :=
  Bloom.updateUniformBuffersScene
    (Bloom.with_base (a_base_at Bloom.handles true 0.25%Q) (bloom_state true true)).

Definition later_pbr_state : PbrBasic.State :=
  PbrBasic.updateLights
    (PbrBasic.with_base (a_base_at PbrBasic.handles true 0.25%Q) (pbr_state true 1 0)).

Definition later_shadow_state : ShadowMapping.State :=
  ShadowMapping.updateUniformBuffers
    (ShadowMapping.updateUniformBufferOffscreen
       (ShadowMapping.updateLight
          (ShadowMapping.with_base (a_base_at ShadowMapping.handles true 0.25%Q)
             (shadow_state true false true 1)))).

(** Earlier contents of the two draw command buffers. *)
Definition old_bloom_buffers : list (CommandBuffer Bloom.handles) :=
  [ [drawUI]; [] ].

Definition old_shadow_buffers : list (CommandBuffer ShadowMapping.handles) :=
  [ []; [vkCmdEndRenderPass] ].

(** A device whose descriptor pool is exhausted when the last set of the
    bloom example is allocated, and one that fails to end the second draw
    command buffer. *)
Definition pool_exhausted : Device Bloom.handles :=
  {| vkBeginCommandBuffer := fun _ => VK_SUCCESS;
     vkEndCommandBuffer := fun _ => VK_SUCCESS;
     vkAllocateDescriptorSets := fun s : hDescriptorSet Bloom.handles =>
       match s with
       | Bloom.descriptorSets_skyBox => VK_ERROR_OUT_OF_POOL_MEMORY
       | _ => VK_SUCCESS
       end;
     vkQueueSubmit := fun _ => VK_SUCCESS |}.

Definition out_of_memory_at_end : Device Bloom.handles :=
  {| vkBeginCommandBuffer := fun _ => VK_SUCCESS;
     vkEndCommandBuffer := fun i =>
       if (i =? 1)%nat then VK_ERROR_OUT_OF_HOST_MEMORY else VK_SUCCESS;
     vkAllocateDescriptorSets := fun _ => VK_SUCCESS;
     vkQueueSubmit := fun _ => VK_SUCCESS |}.

(** A stand-in for prepareFrame and submitFrame of the example base. *)
Definition next_frame {H : Handles} (b : ExampleBase H) : Result (ExampleBase H) :=
  Ok b.

End Samples.

(** * Properties *)

(** ** The definitions at work on the concrete inputs *)

Example bloom_on_frame_length :
  length (Bloom.recordCommands (Samples.bloom_state true true) 0) = 32%nat.
Proof. reflexivity. Qed.

Example bloom_off_frame_length :
  length (Bloom.recordCommands (Samples.bloom_state true false) 0) = 15%nat.
Proof. reflexivity. Qed.

Example bloom_on_begins :
  begins (Bloom.recordCommands (Samples.bloom_state true true) 1)
  = [ (Bloom.offscreenPass_renderPass : hRenderPass Bloom.handles,
       Bloom.offscreenPass_framebuffers 0 : hFramebuffer Bloom.handles);
      (Bloom.offscreenPass_renderPass : hRenderPass Bloom.handles,
       Bloom.offscreenPass_framebuffers 1 : hFramebuffer Bloom.handles);
      (Bloom.ExampleBase_renderPass : hRenderPass Bloom.handles,
       Bloom.ExampleBase_frameBuffers 1 : hFramebuffer Bloom.handles) ].
Proof. reflexivity. Qed.

Example bloom_on_pipelines :
  bound_pipelines (Bloom.recordCommands (Samples.bloom_state true true) 0)
  = [ Bloom.pipelines_glowPass : hPipeline Bloom.handles;
      Bloom.pipelines_blurVert : hPipeline Bloom.handles;
      Bloom.pipelines_skyBox : hPipeline Bloom.handles;
      Bloom.pipelines_phongPass : hPipeline Bloom.handles;
      Bloom.pipelines_blurHorz : hPipeline Bloom.handles ].
Proof. reflexivity. Qed.

Example shadow_frame_lengths :
  result_map length
    (ShadowMapping.recordCommands (Samples.shadow_state true false true 0) 0)
  = Ok 20%nat /\
  result_map length
    (ShadowMapping.recordCommands (Samples.shadow_state true true true 1) 0)
  = Ok 25%nat.
Proof. by split. Qed.

Example shadow_scene_index_out_of_range :
  ShadowMapping.recordCommands (Samples.shadow_state true false true 2) 0
  = Err UndefinedBehaviour /\
  ShadowMapping.recordCommands (Samples.shadow_state true false true (-1)) 0
  = Err UndefinedBehaviour.
Proof. by split. Qed.

Example shadow_pcf_selects_the_pipeline :
  result_map bound_pipelines
    (ShadowMapping.recordCommands (Samples.shadow_state true false true 0) 0)
  = Ok [ ShadowMapping.pipelines_offscreen : hPipeline ShadowMapping.handles;
         ShadowMapping.pipelines_sceneShadowPCF : hPipeline ShadowMapping.handles ] /\
  result_map bound_pipelines
    (ShadowMapping.recordCommands (Samples.shadow_state true true false 0) 0)
  = Ok [ ShadowMapping.pipelines_offscreen : hPipeline ShadowMapping.handles;
         ShadowMapping.pipelines_quad : hPipeline ShadowMapping.handles;
         ShadowMapping.pipelines_sceneShadow : hPipeline ShadowMapping.handles ].
Proof. by split. Qed.

Example pbr_frame_length :
  result_map length (PbrBasic.recordCommands (Samples.pbr_state true 1 0) 0)
  = Ok 156%nat.
Proof. reflexivity. Qed.

Example bloom_set_up_stops_on_an_exhausted_pool :
  Bloom.setupDescriptorSet Samples.pool_exhausted VK_IMAGE_LAYOUT_SHADER_READ_ONLY_OPTIMAL
  = Err (DeviceError VK_ERROR_OUT_OF_POOL_MEMORY).
Proof. reflexivity. Qed.

Example bloom_recording_stops_on_a_device_error :
  Bloom.buildCommandBuffers Samples.out_of_memory_at_end (Samples.bloom_state true true)
  = Err (DeviceError VK_ERROR_OUT_OF_HOST_MEMORY).
Proof. reflexivity. Qed.

Example bloom_render_submits_when_prepared :
  result_map (fun st => length (submitted (Bloom.base st)))
    (Bloom.render Samples.next_frame Samples.next_frame (okDevice Bloom.handles)
       (Samples.bloom_state true true))
  = Ok 1%nat.
Proof. reflexivity. Qed.

(** ** The error discipline and the recording loop *)

Lemma VK_CHECK_RESULT_Ok (res : VkResult) :
  VK_CHECK_RESULT res = Ok tt <-> res = VK_SUCCESS.
Proof.
  unfold VK_CHECK_RESULT. destruct (Z.eqb_spec res VK_SUCCESS); split; congruence.
Qed.

Lemma VK_CHECK_RESULT_Err (res : VkResult) (e : Error) :
  VK_CHECK_RESULT res = Err e -> e = DeviceError res /\ res <> VK_SUCCESS.
Proof.
  unfold VK_CHECK_RESULT. destruct (Z.eqb_spec res VK_SUCCESS); intros Heq.
  - discriminate.
  - by inversion Heq.
Qed.

Lemma bind_Ok {A B} (m : Result A) (k : A -> Result B) (b : B) :
  bind m k = Ok b <-> exists a, m = Ok a /\ k a = Ok b.
Proof.
  destruct m as [a|e]; simpl; split.
  - eauto.
  - by intros (a' & [= ->] & Hk).
  - discriminate.
  - by intros (a' & [=] & _).
Qed.

Lemma bind_Err {A B} (m : Result A) (k : A -> Result B) (e : Error) :
  bind m k = Err e <-> m = Err e \/ exists a, m = Ok a /\ k a = Err e.
Proof.
  destruct m as [a|e']; simpl; split.
  - eauto.
  - intros [[=]|(a' & [= ->] & Hk)]. done.
  - intros [= ->]. by left.
  - intros [[= ->]|(a' & [=] & _)]. done.
Qed.

Lemma for_range_Ok {A} (body : nat -> Result A) (f : nat -> A) (i n : nat) :
  (forall j, body j = Ok (f j)) ->
  for_range i n body = Ok (f <$> seq i n).
Proof.
  intros Hbody. revert i. induction n as [|n IH]; intros i; simpl.
  - done.
  - by rewrite Hbody, IH.
Qed.

Lemma for_range_inv {A} (body : nat -> Result A) (f : nat -> A) (i n : nat)
    (l : list A) :
  (forall j a, body j = Ok a -> a = f j) ->
  for_range i n body = Ok l -> l = f <$> seq i n.
Proof.
  intros Hbody. revert i l. induction n as [|n IH]; intros i l; simpl.
  - by intros [= <-].
  - intros (a & Ha & Hrest)%bind_Ok.
    apply bind_Ok in Hrest as (rest & Hrest & [= <-]).
    by rewrite (Hbody _ _ Ha), (IH _ _ Hrest).
Qed.

Lemma for_range_Err {A} (body : nat -> Result A) (i n : nat) (e : Error) :
  for_range i n body = Err e -> exists j, body j = Err e.
Proof.
  revert i. induction n as [|n IH]; intros i; simpl.
  - discriminate.
  - intros [Hb|(a & _ & Hrest)]%bind_Err; [by eauto|].
    apply bind_Err in Hrest as [Hrest|(rest & _ & [=])].
    by eapply IH.
Qed.

Lemma vector_at_Ok {A} (v : list A) (i : Z) (a : A) :
  vector_at v i = Ok a <-> 0 <= i /\ v !! Z.to_nat i = Some a.
Proof.
  unfold vector_at. destruct (Z.ltb_spec i 0).
  - split; [discriminate | lia].
  - destruct (v !! Z.to_nat i); split; try intros [= ->]; try done.
    + by intros [_ [= ->]].
    + by intros [_ [=]].
Qed.

Lemma vector_at_in_range {A} (v : list A) (i : Z) :
  0 <= i < Z.of_nat (length v) -> exists a, vector_at v i = Ok a.
Proof.
  intros Hi. destruct (lookup_lt_is_Some_2 v (Z.to_nat i)) as [a Ha]; [lia|].
  exists a. apply vector_at_Ok. split; [lia | done].
Qed.

(** ** Soundness of the checks on a frame *)
Section FrameGraphFacts.
Context {F : FloatOps} {H : Handles}.
Context `{EqDecision (hImage H)}.
Variable res : Resources (H := H).

Lemma topo_check_from (written : list (hImage H)) (ps : list Pass) :
  topo_check res written ps = true ->
  forall (i : nat) (p : Pass) (T : hImage H),
    ps !! i = Some p -> T ∈ pass_reads res p ->
    (T ∉ pass_writes res p) /\
    (T ∈ written \/
     exists (j : nat) (q : Pass),
       (j < i)%nat /\ ps !! j = Some q /\ T ∈ pass_writes res q).
Proof.
  revert written. induction ps as [|p0 ps IH]; intros written Hck i p T Hp HT.
  - by rewrite lookup_nil in Hp.
  - simpl in Hck. apply andb_true_iff in Hck as [Hhere Hrest].
    destruct i as [|i]; simpl in Hp.
    + injection Hp as ->.
      rewrite forallb_forall in Hhere.
      specialize (Hhere T (proj1 (list_elem_of_In _ _) HT)).
      apply andb_true_iff in Hhere as [Hw Hnw].
      apply bool_decide_eq_true in Hw.
      apply negb_true_iff, bool_decide_eq_false in Hnw. auto.
    + destruct (IH _ Hrest i p T Hp HT) as [Hnw [Hw|(j & q & Hj & Hq & Hw)]].
      * split; [done|].
        apply elem_of_app in Hw as [Hw|Hw]; [by left|].
        right. exists 0%nat, p0. split; [lia|]. done.
      * split; [done|]. right. exists (S j), q. split; [lia|]. done.
Qed.

Lemma topo_check_sound (ps : list Pass) :
  topo_check res [] ps = true -> topologically_valid res ps.
Proof.
  intros Hck i p T Hp HT.
  destruct (topo_check_from [] ps Hck i p T Hp HT) as [Hnw [Hw|Hw]]; [|done].
  by apply not_elem_of_nil in Hw.
Qed.

Lemma elem_of_concat {A} (x : A) (ls : list (list A)) :
  x ∈ concat ls <-> exists l, l ∈ ls /\ x ∈ l.
Proof.
  rewrite list_elem_of_In, in_concat.
  split; intros (l & Hl & Hx); exists l; by rewrite ?list_elem_of_In in *.
Qed.

Lemma indexed_filter_elem (P : @Pass H -> Prop) `{!forall p, Decision (P p)}
    (ps : list (@Pass H)) :
  fst <$> filter (fun ip : nat * Pass => P ip.2) (imap pair ps) <> [] ->
  exists p, p ∈ ps /\ P p.
Proof.
  intros Hne.
  destruct (filter _ _) as [|[w p] l] eqn:Hf; [done|].
  assert (Hin : (w, p) ∈ filter (fun ip : nat * Pass => P ip.2) (imap pair ps))
    by (rewrite Hf; left).
  apply list_elem_of_filter in Hin as [HP Hin]. simpl in HP.
  apply elem_of_lookup_imap in Hin as (k & q & [= -> ->] & Hq).
  exists q. split; [by eapply list_elem_of_lookup_2 | done].
Qed.

Lemma writers_elem (T : hImage H) (ps : list Pass) :
  writers res T ps <> [] -> T ∈ concat (pass_writes res <$> ps).
Proof.
  intros Hne.
  destruct (indexed_filter_elem (fun p => T ∈ pass_writes res p) ps Hne)
    as (p & Hp & HT).
  apply elem_of_concat. exists (pass_writes res p).
  split; [by apply list_elem_of_fmap_2 | done].
Qed.

Lemma readers_elem (T : hImage H) (ps : list Pass) :
  readers res T ps <> [] -> T ∈ concat (pass_reads res <$> ps).
Proof.
  intros Hne.
  destruct (indexed_filter_elem (fun p => T ∈ pass_reads res p) ps Hne)
    as (p & Hp & HT).
  apply elem_of_concat. exists (pass_reads res p).
  split; [by apply list_elem_of_fmap_2 | done].
Qed.

Lemma single_writer_check_on_elem (ps : list Pass) (Ts : list (hImage H))
    (T : hImage H) :
  single_writer_check_on res ps Ts = true -> T ∈ Ts ->
  exists w : nat, writers res T ps = [w] /\
    forall r : nat, r ∈ readers res T ps -> (w < r)%nat.
Proof.
  induction Ts as [|T0 Ts IH]; intros Hck HT.
  - by apply not_elem_of_nil in HT.
  - simpl in Hck. apply andb_true_iff in Hck as [Hhere Hrest].
    apply elem_of_cons in HT as [->|HT]; [|by apply IH].
    destruct (writers res T0 ps) as [|w [|w' l]]; try discriminate.
    exists w. split; [done|]. intros r Hr.
    rewrite forallb_forall in Hhere.
    apply Nat.ltb_lt, Hhere. by apply list_elem_of_In.
Qed.

Lemma single_writer_check_sound (ps : list Pass) :
  single_writer_check_on res ps (render_targets_of res ps) = true ->
  single_writer res ps.
Proof.
  intros Hck T [Hrt Hocc].
  apply (single_writer_check_on_elem ps _ T Hck).
  unfold render_targets_of. apply elem_of_app.
  destruct Hocc as [Hw|Hr].
  - left. apply list_elem_of_filter. split; [done | by apply writers_elem].
  - right. by apply readers_elem.
Qed.
End FrameGraphFacts.

Lemma for_range_lookup {A} (body : nat -> Result A) (i n : nat) (l : list A) :
  for_range i n body = Ok l ->
  length l = n /\ forall k a, l !! k = Some a -> body (i + k)%nat = Ok a.
Proof.
  revert i l. induction n as [|n IH]; intros i l; simpl.
  - intros [= <-]. split; [done|]. intros k a Hk. by rewrite lookup_nil in Hk.
  - intros (a0 & Ha0 & Hrest)%bind_Ok.
    apply bind_Ok in Hrest as (rest & Hrest & [= <-]).
    destruct (IH _ _ Hrest) as [Hlen Hlook]. split; [by rewrite <- Hlen|].
    intros [|k] a Hk; simpl in Hk.
    + injection Hk as <-. by rewrite Nat.add_0_r.
    + apply Hlook in Hk. by rewrite Nat.add_succ_r.
Qed.

(** ** What buildCommandBuffers leaves in the draw command buffers *)
Section Recording.
Context {F : FloatOps}.

Lemma record_body_Ok {A} (b e : VkResult) (a a' : A) :
  (check VK_CHECK_RESULT b in
   let cmds := a in
   check VK_CHECK_RESULT e in Ok cmds) = Ok a' -> a' = a.
Proof.
  intros (_ & _ & (_ & _ & [= <-])%bind_Ok)%bind_Ok. done.
Qed.

Lemma Bloom_build_ok (dev : Device Bloom.handles) (st : Bloom.State) :
  device_ok dev ->
  Bloom.buildCommandBuffers dev st =
    Ok (Bloom.with_base
          (with_drawCmdBuffers
             (Bloom.recordCommands st <$> seq 0 (length (drawCmdBuffers (Bloom.base st))))
             (Bloom.base st)) st).
Proof.
  intros (Hb & He & _). unfold Bloom.buildCommandBuffers.
  rewrite (for_range_Ok _ (Bloom.recordCommands st)); [done|].
  intros j. by rewrite Hb, He.
Qed.

Lemma Bloom_build_inv (dev : Device Bloom.handles) (st st' : Bloom.State) :
  Bloom.buildCommandBuffers dev st = Ok st' ->
  st' = Bloom.with_base
          (with_drawCmdBuffers
             (Bloom.recordCommands st <$> seq 0 (length (drawCmdBuffers (Bloom.base st))))
             (Bloom.base st)) st.
Proof.
  unfold Bloom.buildCommandBuffers. intros (bufs & Hbufs & [= <-])%bind_Ok.
  apply (for_range_inv _ (Bloom.recordCommands st)) in Hbufs as ->; [done|].
  intros j a Ha. by apply record_body_Ok in Ha.
Qed.

Lemma Bloom_build_Err (dev : Device Bloom.handles) (st : Bloom.State) (e : Error) :
  Bloom.buildCommandBuffers dev st = Err e ->
  exists r, e = DeviceError r /\ r <> VK_SUCCESS.
Proof.
  unfold Bloom.buildCommandBuffers.
  intros [Hl|(bufs & _ & [=])]%bind_Err.
  apply for_range_Err in Hl as (j & Hj).
  apply bind_Err in Hj as [Hj|(_ & _ & Hj)].
  { apply VK_CHECK_RESULT_Err in Hj as [-> ?]. eauto. }
  apply bind_Err in Hj as [Hj|(_ & _ & [=])].
  apply VK_CHECK_RESULT_Err in Hj as [-> ?]. eauto.
Qed.

Lemma Bloom_recorded_elem (st : Bloom.State) (n : nat) cmds :
  cmds ∈ Bloom.recordCommands st <$> seq 0 n ->
  exists i, (i < n)%nat /\ cmds = Bloom.recordCommands st i.
Proof.
  intros (i & -> & Hi)%list_elem_of_fmap. exists i. split; [|done].
  apply elem_of_seq in Hi. lia.
Qed.

(** The frame of the bloom example, for either value of the toggle. *)
Lemma Bloom_passes (st : Bloom.State) (i : nat) :
  passes (Bloom.recordCommands st i) =
    (if Bloom.bloom st then
       [ {| pass_renderPass := Bloom.offscreenPass_renderPass : hRenderPass Bloom.handles;
            pass_framebuffer := Bloom.offscreenPass_framebuffers 0 : hFramebuffer Bloom.handles;
            pass_draws := [ [Bloom.descriptorSets_scene : hDescriptorSet Bloom.handles] ] |};
         {| pass_renderPass := Bloom.offscreenPass_renderPass : hRenderPass Bloom.handles;
            pass_framebuffer := Bloom.offscreenPass_framebuffers 1 : hFramebuffer Bloom.handles;
            pass_draws := [ [Bloom.descriptorSets_blurVert : hDescriptorSet Bloom.handles] ] |} ]
     else [])
    ++ [ {| pass_renderPass := Bloom.ExampleBase_renderPass : hRenderPass Bloom.handles;
            pass_framebuffer := Bloom.ExampleBase_frameBuffers i : hFramebuffer Bloom.handles;
            pass_draws :=
              [ [Bloom.descriptorSets_skyBox : hDescriptorSet Bloom.handles];
                [Bloom.descriptorSets_scene : hDescriptorSet Bloom.handles] ]
              ++ (if Bloom.bloom st
                  then [ [Bloom.descriptorSets_blurHorz : hDescriptorSet Bloom.handles] ]
                  else []) |} ].
Proof. unfold Bloom.recordCommands. by destruct (Bloom.bloom st). Qed.

Lemma Bloom_topo_check (st : Bloom.State) (i : nat) (fmt : VkFormat) :
  topo_check (Bloom.resources fmt) [] (passes (Bloom.recordCommands st i)) = true.
Proof. rewrite Bloom_passes. by destruct (Bloom.bloom st). Qed.

Lemma Shadow_build_ok (dev : Device ShadowMapping.handles)
    (st : ShadowMapping.State) (f : nat -> list (Cmd ShadowMapping.handles)) :
  device_ok dev ->
  (forall i, ShadowMapping.recordCommands st i = Ok (f i)) ->
  ShadowMapping.buildCommandBuffers dev st =
    Ok (ShadowMapping.with_base
          (with_drawCmdBuffers
             (f <$> seq 0 (length (drawCmdBuffers (ShadowMapping.base st))))
             (ShadowMapping.base st)) st).
Proof.
  intros (Hb & He & _) Hf. unfold ShadowMapping.buildCommandBuffers.
  rewrite (for_range_Ok _ f); [done|].
  intros j. by rewrite Hb, Hf, He.
Qed.

Lemma Shadow_build_in_range (dev : Device ShadowMapping.handles)
    (st : ShadowMapping.State) :
  device_ok dev ->
  0 <= ShadowMapping.sceneIndex st < Z.of_nat (length (ShadowMapping.scenes st)) ->
  exists scene,
    vector_at (ShadowMapping.scenes st) (ShadowMapping.sceneIndex st) = Ok scene /\
    ShadowMapping.buildCommandBuffers dev st =
      Ok (ShadowMapping.with_base
            (with_drawCmdBuffers
               (ShadowMapping.recordWith st scene
                  <$> seq 0 (length (drawCmdBuffers (ShadowMapping.base st))))
               (ShadowMapping.base st)) st).
Proof.
  intros Hdev [scene Hscene]%vector_at_in_range. exists scene. split; [done|].
  apply Shadow_build_ok; [done|].
  intros i. unfold ShadowMapping.recordCommands. by rewrite Hscene.
Qed.

Lemma Shadow_build_inv (dev : Device ShadowMapping.handles)
    (st st' : ShadowMapping.State) :
  ShadowMapping.buildCommandBuffers dev st = Ok st' ->
  exists bufs,
    st' = ShadowMapping.with_base
            (with_drawCmdBuffers bufs (ShadowMapping.base st)) st /\
    length bufs = length (drawCmdBuffers (ShadowMapping.base st)) /\
    forall i cmds, bufs !! i = Some cmds ->
      exists scene,
        vector_at (ShadowMapping.scenes st) (ShadowMapping.sceneIndex st) = Ok scene /\
        cmds = ShadowMapping.recordWith st scene i.
Proof.
  unfold ShadowMapping.buildCommandBuffers. intros (bufs & Hbufs & [= <-])%bind_Ok.
  exists bufs. split; [done|].
  apply for_range_lookup in Hbufs as [Hlen Hbufs]. split; [done|].
  intros i cmds Hi. apply Hbufs in Hi. simpl in Hi.
  apply bind_Ok in Hi as (_ & _ & Hi).
  apply bind_Ok in Hi as (c & Hc & Hi).
  apply bind_Ok in Hi as (_ & _ & [= <-]).
  unfold ShadowMapping.recordCommands in Hc.
  apply bind_Ok in Hc as (scene & Hscene & [= <-]). eauto.
Qed.

(** The frame of the shadow-mapping example, for every value of the
    toggles and every scene. *)
Lemma Shadow_passes (st : ShadowMapping.State) (scene : Model) (i : nat) :
  passes (ShadowMapping.recordWith st scene i) =
    [ {| pass_renderPass :=
           ShadowMapping.offscreenPass_renderPass : hRenderPass ShadowMapping.handles;
         pass_framebuffer :=
           ShadowMapping.offscreenPass_frameBuffer : hFramebuffer ShadowMapping.handles;
         pass_draws :=
           [ [ShadowMapping.descriptorSets_offscreen
                : hDescriptorSet ShadowMapping.handles] ] |};
      {| pass_renderPass :=
           ShadowMapping.ExampleBase_renderPass : hRenderPass ShadowMapping.handles;
         pass_framebuffer :=
           ShadowMapping.ExampleBase_frameBuffers i : hFramebuffer ShadowMapping.handles;
         pass_draws :=
           (if ShadowMapping.displayShadowMap st
            then [ [ShadowMapping.descriptorSet : hDescriptorSet ShadowMapping.handles] ]
            else [])
           ++ [ [ShadowMapping.descriptorSets_scene
                   : hDescriptorSet ShadowMapping.handles] ] |} ].
Proof.
  unfold ShadowMapping.recordWith. by destruct (ShadowMapping.displayShadowMap st).
Qed.

Lemma Shadow_topo_check (st : ShadowMapping.State) (scene : Model) (i : nat) :
  topo_check ShadowMapping.resources []
    (passes (ShadowMapping.recordWith st scene i)) = true.
Proof.
  rewrite Shadow_passes. by destruct (ShadowMapping.displayShadowMap st).
Qed.
End Recording.

(** C1. Every frame sequence recorded by the bloom example (glow pass,
    vertical blur, onscreen composite) and by the shadow-mapping example
    (depth pass, scene pass) is topologically valid: with a device whose calls
    succeed, buildCommandBuffers records the draw command buffers, and in
    each of them every pass that reads a render target comes after a pass
    that writes it and does not write it itself.  This holds for every value
    of the toggles and every number of draw command buffers. *)
Theorem frame_sequences_topologically_valid {F : FloatOps}
    (devB : Device Bloom.handles) (stB : Bloom.State) (fmt : VkFormat)
    (devS : Device ShadowMapping.handles) (stS : ShadowMapping.State) :
  device_ok devB ->
  device_ok devS ->
  0 <= ShadowMapping.sceneIndex stS < Z.of_nat (length (ShadowMapping.scenes stS)) ->
  (exists stB',
     Bloom.buildCommandBuffers devB stB = Ok stB' /\
     length (drawCmdBuffers (Bloom.base stB'))
       = length (drawCmdBuffers (Bloom.base stB)) /\
     forall cmds, cmds ∈ drawCmdBuffers (Bloom.base stB') ->
       topologically_valid (Bloom.resources fmt) (passes cmds)) /\
  (exists stS',
     ShadowMapping.buildCommandBuffers devS stS = Ok stS' /\
     length (drawCmdBuffers (ShadowMapping.base stS'))
       = length (drawCmdBuffers (ShadowMapping.base stS)) /\
     forall cmds, cmds ∈ drawCmdBuffers (ShadowMapping.base stS') ->
       topologically_valid ShadowMapping.resources (passes cmds)).
Proof.
  intros HdevB HdevS Hidx. split.
  - eexists. split; [by apply Bloom_build_ok|]. simpl.
    split; [by rewrite length_fmap, length_seq|].
    intros cmds (i & _ & ->)%Bloom_recorded_elem.
    apply topo_check_sound, Bloom_topo_check.
  - destruct (Shadow_build_in_range devS stS HdevS Hidx) as (scene & _ & ->).
    eexists. split; [done|]. simpl.
    split; [by rewrite length_fmap, length_seq|].
    intros cmds (i & -> & _)%list_elem_of_fmap.
    apply topo_check_sound, Shadow_topo_check.
Qed.

Lemma frame_sequences_topologically_valid_witness :
  device_ok (okDevice Bloom.handles) /\
  device_ok (okDevice ShadowMapping.handles) /\
  0 <= 1 < Z.of_nat (length (ShadowMapping.scenes (Samples.shadow_state true true true 1))) /\
  (exists stB',
     Bloom.buildCommandBuffers (okDevice Bloom.handles) (Samples.bloom_state true true)
       = Ok stB' /\
     length (drawCmdBuffers (Bloom.base stB')) = 2%nat /\
     forall cmds, cmds ∈ drawCmdBuffers (Bloom.base stB') ->
       topologically_valid (Bloom.resources VK_FORMAT_D16_UNORM) (passes cmds)) /\
  (exists stS',
     ShadowMapping.buildCommandBuffers (okDevice ShadowMapping.handles)
       (Samples.shadow_state true true true 1) = Ok stS' /\
     length (drawCmdBuffers (ShadowMapping.base stS')) = 2%nat /\
     forall cmds, cmds ∈ drawCmdBuffers (ShadowMapping.base stS') ->
       topologically_valid ShadowMapping.resources (passes cmds)).
Proof.
  assert (HB : device_ok (okDevice Bloom.handles)) by (repeat split; reflexivity).
  assert (HS : device_ok (okDevice ShadowMapping.handles)) by (repeat split; reflexivity).
  assert (Hi : 0 <= 1 < Z.of_nat (length (ShadowMapping.scenes
                 (Samples.shadow_state true true true 1)))) by (simpl; lia).
  split; [exact HB|]. split; [exact HS|]. split; [exact Hi|].
  exact (frame_sequences_topologically_valid (F := Samples.rational_floats)
           (okDevice Bloom.handles) (Samples.bloom_state true true) VK_FORMAT_D16_UNORM
           (okDevice ShadowMapping.handles) (Samples.shadow_state true true true 1)
           HB HS Hi).
Defined.

(** C8. In every recorded frame each render target that takes part in the
    frame is written by exactly one pass, and every pass that reads it comes
    later.  In the bloom example offscreen framebuffer 0 is written by the
    glow pass only (pass 0) and read by the vertical blur (pass 1);
    framebuffer 1 is written by the vertical blur only and read by the
    composite pass (pass 2); with bloom off neither is written or read.  In
    the shadow-mapping example the depth target is written by the offscreen
    pass only and read by the scene pass.  In the offscreen shadow-mapping
    example the only render pass the example begins is the one on offscreen
    framebuffer 0, once, in the offscreen command buffer. *)
Theorem render_targets_have_a_single_writer {F : FloatOps}
    (devB : Device Bloom.handles) (stB : Bloom.State) (fmt : VkFormat)
    (devS : Device ShadowMapping.handles) (stS : ShadowMapping.State)
    (stO : OffscreenShadowMapping.State) :
  device_ok devB ->
  device_ok devS ->
  0 <= ShadowMapping.sceneIndex stS < Z.of_nat (length (ShadowMapping.scenes stS)) ->
  (exists stB',
     Bloom.buildCommandBuffers devB stB = Ok stB' /\
     forall cmds, cmds ∈ drawCmdBuffers (Bloom.base stB') ->
       let res := Bloom.resources fmt in
       let color k := Bloom.framebuffers_color k : hImage Bloom.handles in
       single_writer res (passes cmds) /\
       writers res (color 0%nat) (passes cmds) = (if Bloom.bloom stB then [0%nat] else []) /\
       readers res (color 0%nat) (passes cmds) = (if Bloom.bloom stB then [1%nat] else []) /\
       writers res (color 1%nat) (passes cmds) = (if Bloom.bloom stB then [1%nat] else []) /\
       readers res (color 1%nat) (passes cmds) = (if Bloom.bloom stB then [2%nat] else [])) /\
  (exists stS',
     ShadowMapping.buildCommandBuffers devS stS = Ok stS' /\
     forall cmds, cmds ∈ drawCmdBuffers (ShadowMapping.base stS') ->
       let res := ShadowMapping.resources in
       let depth := ShadowMapping.offscreenPass_depth : hImage ShadowMapping.handles in
       single_writer res (passes cmds) /\
       writers res depth (passes cmds) = [0%nat] /\
       readers res depth (passes cmds) = [1%nat]) /\
  begins (OffscreenShadowMapping.buildOffscreenCommandBuffer stO)
    = [ (OffscreenShadowMapping.offscreen_renderPass : hRenderPass OffscreenShadowMapping.handles,
         OffscreenShadowMapping.offscreen_framebuffers 0 : hFramebuffer OffscreenShadowMapping.handles) ] /\
  begins (OffscreenShadowMapping.updateDrawCommandBuffer stO) = [].
Proof.
  intros HdevB HdevS Hidx. split; [|split; [|split]].
  - eexists. split; [by apply Bloom_build_ok|]. simpl.
    intros cmds (i & _ & ->)%Bloom_recorded_elem.
    split.
    { apply single_writer_check_sound. rewrite Bloom_passes.
      by destruct (Bloom.bloom stB). }
    rewrite Bloom_passes. by destruct (Bloom.bloom stB).
  - destruct (Shadow_build_in_range devS stS HdevS Hidx) as (scene & _ & ->).
    eexists. split; [done|]. simpl.
    intros cmds (i & -> & _)%list_elem_of_fmap.
    split.
    { apply single_writer_check_sound. rewrite Shadow_passes.
      by destruct (ShadowMapping.displayShadowMap stS). }
    rewrite Shadow_passes. by destruct (ShadowMapping.displayShadowMap stS).
  - done.
  - unfold OffscreenShadowMapping.updateDrawCommandBuffer.
    by destruct (OffscreenShadowMapping.displayShadowMap stO).
Qed.

Lemma render_targets_have_a_single_writer_witness :
  device_ok (okDevice Bloom.handles) /\
  device_ok (okDevice ShadowMapping.handles) /\
  0 <= 0 < Z.of_nat (length (ShadowMapping.scenes (Samples.shadow_state true true false 0))) /\
  exists stS',
    ShadowMapping.buildCommandBuffers (okDevice ShadowMapping.handles)
      (Samples.shadow_state true true false 0) = Ok stS' /\
    forall cmds, cmds ∈ drawCmdBuffers (ShadowMapping.base stS') ->
      let res := ShadowMapping.resources in
      let depth := ShadowMapping.offscreenPass_depth : hImage ShadowMapping.handles in
      single_writer res (passes cmds) /\
      writers res depth (passes cmds) = [0%nat] /\
      readers res depth (passes cmds) = [1%nat].
Proof.
  assert (HB : device_ok (okDevice Bloom.handles)) by (repeat split; reflexivity).
  assert (HS : device_ok (okDevice ShadowMapping.handles)) by (repeat split; reflexivity).
  assert (Hi : 0 <= 0 < Z.of_nat (length (ShadowMapping.scenes
                 (Samples.shadow_state true true false 0)))) by (simpl; lia).
  split; [exact HB|]. split; [exact HS|]. split; [exact Hi|].
  exact (proj1 (proj2
    (render_targets_have_a_single_writer (F := Samples.rational_floats)
       (okDevice Bloom.handles) (Samples.bloom_state true false) VK_FORMAT_D16_UNORM
       (okDevice ShadowMapping.handles) (Samples.shadow_state true true false 0)
       (Samples.offscreen_state true) HB HS Hi))).
Defined.



Lemma for_range_ext {A} (body body' : nat -> Result A) (i n : nat) :
  (forall j, body j = body' j) -> for_range i n body = for_range i n body'.
Proof.
  intros Hext. revert i. induction n as [|n IH]; intros i; simpl; [done|].
  by rewrite Hext, IH.
Qed.

(** ** Re-recording replaces what was recorded before *)
Section Rerecording.
Context {F : FloatOps}.

Lemma Bloom_build_ignores_recorded (dev : Device Bloom.handles) (st : Bloom.State)
    (bufs : list (CommandBuffer Bloom.handles)) :
  length bufs = length (drawCmdBuffers (Bloom.base st)) ->
  Bloom.buildCommandBuffers dev
    (Bloom.with_base (with_drawCmdBuffers bufs (Bloom.base st)) st)
  = Bloom.buildCommandBuffers dev st.
Proof.
  intros Hlen. unfold Bloom.buildCommandBuffers. simpl. by rewrite Hlen.
Qed.

Lemma Shadow_build_ignores_recorded (dev : Device ShadowMapping.handles)
    (st : ShadowMapping.State) (bufs : list (CommandBuffer ShadowMapping.handles)) :
  length bufs = length (drawCmdBuffers (ShadowMapping.base st)) ->
  ShadowMapping.buildCommandBuffers dev
    (ShadowMapping.with_base (with_drawCmdBuffers bufs (ShadowMapping.base st)) st)
  = ShadowMapping.buildCommandBuffers dev st.
Proof.
  intros Hlen. unfold ShadowMapping.buildCommandBuffers. simpl. by rewrite Hlen.
Qed.

Lemma Bloom_build_twice (dev : Device Bloom.handles) (st : Bloom.State) :
  (let* st1 := Bloom.buildCommandBuffers dev st in
   Bloom.buildCommandBuffers dev st1)
  = Bloom.buildCommandBuffers dev st.
Proof.
  destruct (Bloom.buildCommandBuffers dev st) as [st1|e] eqn:Hb; simpl; [|done].
  pose proof (Bloom_build_inv _ _ _ Hb) as ->.
  rewrite Bloom_build_ignores_recorded; [done|].
  by rewrite length_fmap, length_seq.
Qed.

Lemma Shadow_build_twice (dev : Device ShadowMapping.handles)
    (st : ShadowMapping.State) :
  (let* st1 := ShadowMapping.buildCommandBuffers dev st in
   ShadowMapping.buildCommandBuffers dev st1)
  = ShadowMapping.buildCommandBuffers dev st.
Proof.
  destruct (ShadowMapping.buildCommandBuffers dev st) as [st1|e] eqn:Hb; simpl; [|done].
  destruct (Shadow_build_inv _ _ _ Hb) as (bufs & -> & Hlen & _).
  by rewrite Shadow_build_ignores_recorded.
Qed.

Lemma Bloom_build_any_ok_device (dev1 dev2 : Device Bloom.handles) (st : Bloom.State) :
  device_ok dev1 -> device_ok dev2 ->
  Bloom.buildCommandBuffers dev1 st = Bloom.buildCommandBuffers dev2 st.
Proof. intros H1 H2. by rewrite !Bloom_build_ok. Qed.

Lemma Shadow_build_any_ok_device (dev1 dev2 : Device ShadowMapping.handles)
    (st : ShadowMapping.State) :
  device_ok dev1 -> device_ok dev2 ->
  ShadowMapping.buildCommandBuffers dev1 st = ShadowMapping.buildCommandBuffers dev2 st.
Proof.
  intros (Hb1 & He1 & _) (Hb2 & He2 & _). unfold ShadowMapping.buildCommandBuffers.
  f_equal. apply for_range_ext. intros j. by rewrite Hb1, Hb2, He1, He2.
Qed.
End Rerecording.

(** C4. With the bloom toggle off, recording succeeds and leaves out both
    writer passes and the reading draw together: the only render pass begun in
    each draw command buffer is the onscreen one, neither blur descriptor set
    and none of the glow and blur pipelines is bound, no pass of the frame
    reads a render target, and the frame is topologically valid (no dangling
    read).  Whatever the device answers, recording never ends in a
    ConfigurationError. *)
Theorem bloom_off_removes_writers_and_reader {F : FloatOps}
    (dev dev' : Device Bloom.handles) (st : Bloom.State) (fmt : VkFormat) :
  device_ok dev ->
  Bloom.bloom st = false ->
  (exists st',
     Bloom.buildCommandBuffers dev st = Ok st' /\
     length (drawCmdBuffers (Bloom.base st')) = length (drawCmdBuffers (Bloom.base st)) /\
     forall (i : nat) cmds, drawCmdBuffers (Bloom.base st') !! i = Some cmds ->
       let res := Bloom.resources fmt in
       begins cmds
         = [ (Bloom.ExampleBase_renderPass : hRenderPass Bloom.handles,
              Bloom.ExampleBase_frameBuffers i : hFramebuffer Bloom.handles) ] /\
       bound_descriptor_sets cmds
         = [ Bloom.descriptorSets_skyBox : hDescriptorSet Bloom.handles;
             Bloom.descriptorSets_scene : hDescriptorSet Bloom.handles ] /\
       bound_pipelines cmds
         = [ Bloom.pipelines_skyBox : hPipeline Bloom.handles;
             Bloom.pipelines_phongPass : hPipeline Bloom.handles ] /\
       concat (pass_reads res <$> passes cmds) = [] /\
       topologically_valid res (passes cmds)) /\
  Bloom.buildCommandBuffers dev' st <> Err ConfigurationError.
Proof.
  intros Hdev Hoff. split.
  - eexists. split; [by apply Bloom_build_ok|]. simpl.
    split; [by rewrite length_fmap, length_seq|].
    intros i cmds Hi. rewrite list_lookup_fmap in Hi.
    destruct (seq _ _ !! i) as [j|] eqn:Hj; [|done].
    apply lookup_seq in Hj as [-> _]. injection Hi as <-. simpl.
    split; [|split; [|split; [|split]]];
      try (unfold Bloom.recordCommands; rewrite Hoff; reflexivity).
    apply topo_check_sound, Bloom_topo_check.
  - intros (r & [=] & _)%Bloom_build_Err.
Qed.

Lemma bloom_off_removes_writers_and_reader_witness :
  device_ok (okDevice Bloom.handles) /\
  Bloom.bloom (Samples.bloom_state true false) = false /\
  Bloom.buildCommandBuffers (okDevice Bloom.handles) (Samples.bloom_state true false)
    <> Err ConfigurationError.
Proof.
  assert (HB : device_ok (okDevice Bloom.handles)) by (repeat split; reflexivity).
  split; [exact HB|]. split; [reflexivity|].
  exact (proj2
    (bloom_off_removes_writers_and_reader (F := Samples.rational_floats)
       (okDevice Bloom.handles) (okDevice Bloom.handles)
       (Samples.bloom_state true false) VK_FORMAT_D16_UNORM HB eq_refl)).
Defined.

(** C5. Recording is deterministic.  What buildCommandBuffers records depends
    only on the state it reads: it does not depend on what the draw command
    buffers held before, recording a second time from the resulting state
    reproduces the same state, and any two devices whose calls succeed give
    the same ordered command sequences.  Bloom and shadow-mapping examples. *)
Theorem recording_is_deterministic {F : FloatOps}
    (devB devB' : Device Bloom.handles) (stB : Bloom.State)
    (bufsB : list (CommandBuffer Bloom.handles))
    (devS devS' : Device ShadowMapping.handles) (stS : ShadowMapping.State)
    (bufsS : list (CommandBuffer ShadowMapping.handles)) :
  device_ok devB -> device_ok devB' ->
  device_ok devS -> device_ok devS' ->
  length bufsB = length (drawCmdBuffers (Bloom.base stB)) ->
  length bufsS = length (drawCmdBuffers (ShadowMapping.base stS)) ->
  (Bloom.buildCommandBuffers devB'
     (Bloom.with_base (with_drawCmdBuffers bufsB (Bloom.base stB)) stB)
   = Bloom.buildCommandBuffers devB stB /\
   (let* st1 := Bloom.buildCommandBuffers devB stB in
    Bloom.buildCommandBuffers devB' st1)
   = Bloom.buildCommandBuffers devB stB /\
   exists stB', Bloom.buildCommandBuffers devB stB = Ok stB') /\
  (ShadowMapping.buildCommandBuffers devS'
     (ShadowMapping.with_base (with_drawCmdBuffers bufsS (ShadowMapping.base stS)) stS)
   = ShadowMapping.buildCommandBuffers devS stS /\
   (let* st1 := ShadowMapping.buildCommandBuffers devS stS in
    ShadowMapping.buildCommandBuffers devS' st1)
   = ShadowMapping.buildCommandBuffers devS stS).
Proof.
  intros HB HB' HS HS' HlenB HlenS. split; [split; [|split]|split].
  - rewrite Bloom_build_ignores_recorded by done.
    by apply Bloom_build_any_ok_device.
  - rewrite <- (Bloom_build_twice devB stB) at 2.
    destruct (Bloom.buildCommandBuffers devB stB) as [st1|e]; simpl; [|done].
    by apply Bloom_build_any_ok_device.
  - eexists. by apply Bloom_build_ok.
  - rewrite Shadow_build_ignores_recorded by done.
    by apply Shadow_build_any_ok_device.
  - rewrite <- (Shadow_build_twice devS stS) at 2.
    destruct (ShadowMapping.buildCommandBuffers devS stS) as [st1|e]; simpl; [|done].
    by apply Shadow_build_any_ok_device.
Qed.

Lemma recording_is_deterministic_witness :
  device_ok (okDevice Bloom.handles) /\
  device_ok (okDevice ShadowMapping.handles) /\
  length Samples.old_bloom_buffers
    = length (drawCmdBuffers (Bloom.base (Samples.bloom_state true true))) /\
  length Samples.old_shadow_buffers
    = length (drawCmdBuffers (ShadowMapping.base (Samples.shadow_state true false true 0))) /\
  Bloom.buildCommandBuffers (okDevice Bloom.handles)
    (Bloom.with_base
       (with_drawCmdBuffers Samples.old_bloom_buffers
          (Bloom.base (Samples.bloom_state true true)))
       (Samples.bloom_state true true))
  = Bloom.buildCommandBuffers (okDevice Bloom.handles) (Samples.bloom_state true true).
Proof.
  assert (HB : device_ok (okDevice Bloom.handles)) by (repeat split; reflexivity).
  assert (HS : device_ok (okDevice ShadowMapping.handles)) by (repeat split; reflexivity).
  split; [exact HB|]. split; [exact HS|]. split; [reflexivity|]. split; [reflexivity|].
  exact (proj1 (proj1
    (recording_is_deterministic (F := Samples.rational_floats)
       (okDevice Bloom.handles) (okDevice Bloom.handles) (Samples.bloom_state true true)
       Samples.old_bloom_buffers
       (okDevice ShadowMapping.handles) (okDevice ShadowMapping.handles)
       (Samples.shadow_state true false true 0) Samples.old_shadow_buffers
       HB HB HS HS eq_refl eq_refl))).
Defined.

(** ** Recording reads the discrete state only *)
Section SceneParameters.
Context {F : FloatOps}.

Lemma result_map_bind_Ok {A B C} (m : Result A) (g : A -> B) (f : B -> C) :
  result_map f (let* a := m in Ok (g a)) = result_map (fun a => f (g a)) m.
Proof. by destruct m. Qed.

Lemma Bloom_record_same_inputs (st1 st2 : Bloom.State) (i : nat) :
  Bloom_same_discrete_state st1 st2 ->
  Bloom.recordCommands st1 i = Bloom.recordCommands st2 i.
Proof.
  intros (Hb & Hu & Hg & Hs & Hw & Hh & Hbw & Hbh & Hc & _).
  unfold Bloom.recordCommands, Bloom.offscreen_beginInfo.
  by rewrite Hb, Hu, Hg, Hs, Hw, Hh, Hbw, Hbh, Hc.
Qed.

Lemma Bloom_recorded_same_inputs (dev : Device Bloom.handles) (st1 st2 : Bloom.State) :
  Bloom_same_discrete_state st1 st2 ->
  Bloom_recorded dev st1 = Bloom_recorded dev st2.
Proof.
  intros Hsame. unfold Bloom_recorded, Bloom.buildCommandBuffers.
  rewrite !result_map_bind_Ok. simpl.
  pose proof Hsame as (_ & _ & _ & _ & _ & _ & _ & _ & _ & Hlen).
  rewrite Hlen. f_equal. apply for_range_ext. intros j.
  by rewrite (Bloom_record_same_inputs st1 st2 j).
Qed.

Lemma Pbr_record_same_inputs (st1 st2 : PbrBasic.State) (i : nat) :
  Pbr_same_discrete_state st1 st2 ->
  PbrBasic.recordCommands st1 i = PbrBasic.recordCommands st2 i.
Proof.
  intros (Ho & Hoi & Hm & Hmi & Hbw & Hbh & Hc & _).
  unfold PbrBasic.recordCommands, PbrBasic.recordWith.
  by rewrite Ho, Hoi, Hm, Hmi, Hbw, Hbh, Hc.
Qed.

Lemma Pbr_recorded_same_inputs (dev : Device PbrBasic.handles)
    (st1 st2 : PbrBasic.State) :
  Pbr_same_discrete_state st1 st2 ->
  Pbr_recorded dev st1 = Pbr_recorded dev st2.
Proof.
  intros Hsame. unfold Pbr_recorded, PbrBasic.buildCommandBuffers.
  rewrite !result_map_bind_Ok. simpl.
  pose proof Hsame as (_ & _ & _ & _ & _ & _ & _ & Hlen).
  rewrite Hlen. f_equal. apply for_range_ext. intros j.
  by rewrite (Pbr_record_same_inputs st1 st2 j).
Qed.

Lemma Shadow_record_same_inputs (st1 st2 : ShadowMapping.State) (i : nat) :
  Shadow_same_discrete_state st1 st2 ->
  ShadowMapping.recordCommands st1 i = ShadowMapping.recordCommands st2 i.
Proof.
  intros (Hd & Hp & Hi & Hs & Hq & Hbc & Hbs & Hw & Hh & Hbw & Hbh & Hc & _).
  unfold ShadowMapping.recordCommands, ShadowMapping.recordWith.
  by rewrite Hd, Hp, Hi, Hs, Hq, Hbc, Hbs, Hw, Hh, Hbw, Hbh, Hc.
Qed.

Lemma Shadow_recorded_same_inputs (dev : Device ShadowMapping.handles)
    (st1 st2 : ShadowMapping.State) :
  Shadow_same_discrete_state st1 st2 ->
  Shadow_recorded dev st1 = Shadow_recorded dev st2.
Proof.
  intros Hsame. unfold Shadow_recorded, ShadowMapping.buildCommandBuffers.
  rewrite !result_map_bind_Ok. simpl.
  pose proof Hsame as (_ & _ & _ & _ & _ & _ & _ & _ & _ & _ & _ & _ & Hlen).
  rewrite Hlen. f_equal. apply for_range_ext. intros j.
  by rewrite (Shadow_record_same_inputs st1 st2 j).
Qed.

Lemma Bloom_render_keeps_recording
    (prepareFrame submitFrame : ExampleBase Bloom.handles -> Result (ExampleBase Bloom.handles))
    (dev : Device Bloom.handles) (st : Bloom.State) :
  result_map Bloom.base (Bloom.render prepareFrame submitFrame dev st)
  = if prepared (Bloom.base st)
    then result_map Bloom.base (Bloom.draw prepareFrame submitFrame dev st)
    else Ok (Bloom.base st).
Proof.
  unfold Bloom.render. destruct (prepared (Bloom.base st)); simpl; [|done].
  destruct (Bloom.draw _ _ _ _) as [st1|e]; simpl; [|done].
  by destruct (negb (paused (Bloom.base st1)) || updated (camera (Bloom.base st1))).
Qed.

Lemma Pbr_render_keeps_recording
    (prepareFrame submitFrame : ExampleBase PbrBasic.handles -> Result (ExampleBase PbrBasic.handles))
    (dev : Device PbrBasic.handles) (st : PbrBasic.State) :
  result_map PbrBasic.base (PbrBasic.render prepareFrame submitFrame dev st)
  = if prepared (PbrBasic.base st)
    then result_map PbrBasic.base (PbrBasic.draw prepareFrame submitFrame dev st)
    else Ok (PbrBasic.base st).
Proof.
  unfold PbrBasic.render. destruct (prepared (PbrBasic.base st)); simpl; [|done].
  destruct (PbrBasic.draw _ _ _ _) as [st1|e]; simpl; [|done].
  by destruct (negb (paused (PbrBasic.base st1))).
Qed.
End SceneParameters.

(** C10. The recorded command sequence does not depend on the continuous
    scene state.  Two states that agree on the toggle, the models and
    selections, the window size, the clear colour and the number of draw
    command buffers record identical command sequences, whatever their
    camera, timer, light and blur parameters are.  The updates of camera,
    animation and blur scale (updateUniformBuffersScene,
    updateUniformBuffersBlur, updateLights, updateUniformBuffers) write the
    uniform blocks and the mapped uniform memory and nothing else; a UI frame
    in which no toggle or selection changed, also one that changed the blur
    scale, records nothing; render leaves the base, and with it the draw
    command buffers, as draw left it.  In the shadow-mapping example the
    per-frame updates also write the light position, and still leave the
    recording inputs unchanged. *)
Theorem commands_independent_of_scene_parameters {F : FloatOps}
    (devB : Device Bloom.handles) (b1 b2 : Bloom.State)
    (header : bool) (scale : option float)
    (pfB sfB : ExampleBase Bloom.handles -> Result (ExampleBase Bloom.handles))
    (devP : Device PbrBasic.handles) (p1 p2 : PbrBasic.State)
    (pfP sfP : ExampleBase PbrBasic.handles -> Result (ExampleBase PbrBasic.handles))
    (devS : Device ShadowMapping.handles) (s1 s2 : ShadowMapping.State) :
  Bloom_same_discrete_state b1 b2 ->
  Pbr_same_discrete_state p1 p2 ->
  Shadow_same_discrete_state s1 s2 ->
  (Bloom_recorded devB b1 = Bloom_recorded devB b2 /\
   Bloom_only_uniforms_written b1 (Bloom.updateUniformBuffersScene b1) /\
   Bloom_only_uniforms_written b1 (Bloom.updateUniformBuffersBlur b1) /\
   (exists b1',
      Bloom.OnUpdateUIOverlay devB
        {| Bloom.header_Settings := header; Bloom.checkBox_Bloom := None;
           Bloom.inputFloat_Scale := scale |} b1 = Ok b1' /\
      Bloom_only_uniforms_written b1 b1') /\
   result_map Bloom.base (Bloom.render pfB sfB devB b1)
   = (if prepared (Bloom.base b1)
      then result_map Bloom.base (Bloom.draw pfB sfB devB b1)
      else Ok (Bloom.base b1))) /\
  (Pbr_recorded devP p1 = Pbr_recorded devP p2 /\
   Pbr_only_uniforms_written p1 (PbrBasic.updateLights p1) /\
   Pbr_only_uniforms_written p1 (PbrBasic.updateUniformBuffers p1) /\
   PbrBasic.OnUpdateUIOverlay devP
     {| PbrBasic.header_Settings := header; PbrBasic.comboBox_Material := None;
        PbrBasic.comboBox_ObjectType := None |} p1 = Ok p1 /\
   result_map PbrBasic.base (PbrBasic.render pfP sfP devP p1)
   = (if prepared (PbrBasic.base p1)
      then result_map PbrBasic.base (PbrBasic.draw pfP sfP devP p1)
      else Ok (PbrBasic.base p1))) /\
  (Shadow_recorded devS s1 = Shadow_recorded devS s2 /\
   Shadow_same_discrete_state s1
     (ShadowMapping.updateUniformBuffers
        (ShadowMapping.updateUniformBufferOffscreen (ShadowMapping.updateLight s1))) /\
   ShadowMapping.base
     (ShadowMapping.updateUniformBuffers
        (ShadowMapping.updateUniformBufferOffscreen (ShadowMapping.updateLight s1)))
   = ShadowMapping.base s1).
Proof.
  intros HB HP HS. split; [|split].
  - split; [by apply Bloom_recorded_same_inputs|].
    split; [done|]. split; [done|].
    split; [|apply Bloom_render_keeps_recording].
    destruct header, scale; eexists; (split; [reflexivity | done]).
  - split; [by apply Pbr_recorded_same_inputs|].
    split; [done|]. split; [done|].
    split; [by destruct header | apply Pbr_render_keeps_recording].
  - split; [by apply Shadow_recorded_same_inputs|].
    split; [|by unfold ShadowMapping.updateUniformBuffers; destruct (rotation _) as [[??]?]].
    unfold ShadowMapping.updateUniformBuffers. destruct (rotation _) as [[??]?].
    by repeat split.
Qed.

Lemma commands_independent_of_scene_parameters_witness :
  Bloom_same_discrete_state (Samples.bloom_state true true) Samples.later_bloom_state /\
  Pbr_same_discrete_state (Samples.pbr_state true 1 0) Samples.later_pbr_state /\
  Shadow_same_discrete_state (Samples.shadow_state true false true 1)
    Samples.later_shadow_state /\
  Bloom_recorded (okDevice Bloom.handles) (Samples.bloom_state true true)
  = Bloom_recorded (okDevice Bloom.handles) Samples.later_bloom_state.
Proof.
  assert (HB : Bloom_same_discrete_state (Samples.bloom_state true true)
                 Samples.later_bloom_state) by (repeat split; reflexivity).
  assert (HP : Pbr_same_discrete_state (Samples.pbr_state true 1 0)
                 Samples.later_pbr_state) by (repeat split; reflexivity).
  assert (HS : Shadow_same_discrete_state (Samples.shadow_state true false true 1)
                 Samples.later_shadow_state) by (repeat split; reflexivity).
  split; [exact HB|]. split; [exact HP|]. split; [exact HS|].
  exact (proj1 (proj1
    (commands_independent_of_scene_parameters (F := Samples.rational_floats)
       (okDevice Bloom.handles) (Samples.bloom_state true true) Samples.later_bloom_state
       true (Some 2%Q) Samples.next_frame Samples.next_frame
       (okDevice PbrBasic.handles) (Samples.pbr_state true 1 0) Samples.later_pbr_state
       Samples.next_frame Samples.next_frame
       (okDevice ShadowMapping.handles) (Samples.shadow_state true false true 1)
       Samples.later_shadow_state HB HP HS))).
Defined.

Ltac solve_sublist := cbn; repeat constructor.

Ltac solve_NoDup :=
  cbn; rewrite ?NoDup_cons, ?elem_of_cons, ?elem_of_nil;
  repeat split; try apply NoDup_nil_2; intuition congruence.

Lemma recorded_lookup {A} (f : nat -> A) (n i : nat) (a : A) :
  (f <$> seq 0 n) !! i = Some a -> (i < n)%nat /\ a = f i.
Proof.
  rewrite list_lookup_fmap. intros Hi.
  destruct (seq 0 n !! i) as [j|] eqn:Hj; [|done].
  apply lookup_seq in Hj as [-> ?]. by injection Hi as <-.
Qed.

(** C6. The order of the passes is fixed by the code of buildCommandBuffers
    and every toggle can only leave passes or draws out.  In the bloom
    example the passes of any recorded frame are a subsequence of the passes
    recorded at set-up (bloom on, its initial value), and so are its draws.
    In the shadow-mapping example the two passes are the same for every
    value of displayShadowMap, filterPCF and sceneIndex as at set-up, and the
    draws of any recorded frame are a subsequence of the draws recorded with
    the shadow map displayed.  The sequences compared against have no
    repetition, so the relative order of what remains is the order at
    set-up.  A toggle in the UI does nothing but store the new value and call
    the same buildCommandBuffers. *)
Theorem pass_order_is_static {F : FloatOps}
    (devB : Device Bloom.handles) (stB : Bloom.State) (v : bool)
    (devS : Device ShadowMapping.handles) (stS : ShadowMapping.State)
    (scene0 : Model) (idx : Z) :
  device_ok devB ->
  device_ok devS ->
  0 <= ShadowMapping.sceneIndex stS < Z.of_nat (length (ShadowMapping.scenes stS)) ->
  (exists stB',
     Bloom.buildCommandBuffers devB stB = Ok stB' /\
     forall (i : nat) cmds, drawCmdBuffers (Bloom.base stB') !! i = Some cmds ->
       let setup :=
         passes (Bloom.recordCommands (Bloom.with_bloom Bloom.bloom_initially stB) i) in
       pass_ids (passes cmds) `sublist_of` pass_ids setup /\
       frame_draws (passes cmds) `sublist_of` frame_draws setup /\
       NoDup (pass_ids setup) /\ NoDup (frame_draws setup)) /\
  (exists stS',
     ShadowMapping.buildCommandBuffers devS stS = Ok stS' /\
     forall (i : nat) cmds, drawCmdBuffers (ShadowMapping.base stS') !! i = Some cmds ->
       let setup :=
         passes (ShadowMapping.recordWith
                   (ShadowMapping.with_selection ShadowMapping.sceneIndex_initially
                      ShadowMapping.displayShadowMap_initially
                      ShadowMapping.filterPCF_initially stS) scene0 i) in
       let full :=
         passes (ShadowMapping.recordWith
                   (ShadowMapping.with_selection ShadowMapping.sceneIndex_initially
                      true ShadowMapping.filterPCF_initially stS) scene0 i) in
       pass_ids (passes cmds) = pass_ids setup /\
       frame_draws setup `sublist_of` frame_draws full /\
       frame_draws (passes cmds) `sublist_of` frame_draws full /\
       NoDup (pass_ids full) /\ NoDup (frame_draws full)) /\
  Bloom.OnUpdateUIOverlay devB
    {| Bloom.header_Settings := true; Bloom.checkBox_Bloom := Some v;
       Bloom.inputFloat_Scale := None |} stB
  = Bloom.buildCommandBuffers devB (Bloom.with_bloom v stB) /\
  ShadowMapping.OnUpdateUIOverlay devS
    {| ShadowMapping.header_Settings := true;
       ShadowMapping.comboBox_Scenes := Some idx;
       ShadowMapping.checkBox_DisplayShadowRenderTarget := None;
       ShadowMapping.checkBox_PCFFiltering := None |} stS
  = ShadowMapping.buildCommandBuffers devS
      (ShadowMapping.with_selection idx (ShadowMapping.displayShadowMap stS)
         (ShadowMapping.filterPCF stS) stS) /\
  ShadowMapping.OnUpdateUIOverlay devS
    {| ShadowMapping.header_Settings := true;
       ShadowMapping.comboBox_Scenes := None;
       ShadowMapping.checkBox_DisplayShadowRenderTarget := Some v;
       ShadowMapping.checkBox_PCFFiltering := None |} stS
  = ShadowMapping.buildCommandBuffers devS
      (ShadowMapping.with_selection (ShadowMapping.sceneIndex stS) v
         (ShadowMapping.filterPCF stS) stS) /\
  ShadowMapping.OnUpdateUIOverlay devS
    {| ShadowMapping.header_Settings := true;
       ShadowMapping.comboBox_Scenes := None;
       ShadowMapping.checkBox_DisplayShadowRenderTarget := None;
       ShadowMapping.checkBox_PCFFiltering := Some v |} stS
  = ShadowMapping.buildCommandBuffers devS
      (ShadowMapping.with_selection (ShadowMapping.sceneIndex stS)
         (ShadowMapping.displayShadowMap stS) v stS).
Proof.
  intros HdevB HdevS Hidx. split; [|split; [|split; [|split; [|split]]]].
  - eexists. split; [by apply Bloom_build_ok|]. simpl.
    intros i cmds [_ ->]%recorded_lookup.
    rewrite !Bloom_passes. simpl.
    split; [|split; [|split]].
    + destruct (Bloom.bloom stB); solve_sublist.
    + destruct (Bloom.bloom stB); solve_sublist.
    + solve_NoDup.
    + solve_NoDup.
  - destruct (Shadow_build_in_range devS stS HdevS Hidx) as (scene & _ & ->).
    eexists. split; [done|]. simpl.
    intros i cmds [_ ->]%recorded_lookup.
    rewrite !Shadow_passes. simpl.
    split; [done|]. split; [solve_sublist|].
    split; [destruct (ShadowMapping.displayShadowMap stS); solve_sublist|].
    split; solve_NoDup.
  - unfold Bloom.OnUpdateUIOverlay. simpl.
    by destruct (Bloom.buildCommandBuffers _ _).
  - unfold ShadowMapping.OnUpdateUIOverlay. simpl.
    by destruct (ShadowMapping.buildCommandBuffers _ _).
  - unfold ShadowMapping.OnUpdateUIOverlay. simpl.
    by destruct (ShadowMapping.buildCommandBuffers _ _).
  - unfold ShadowMapping.OnUpdateUIOverlay. simpl.
    by destruct (ShadowMapping.buildCommandBuffers _ _).
Qed.

Lemma pass_order_is_static_witness :
  device_ok (okDevice Bloom.handles) /\
  device_ok (okDevice ShadowMapping.handles) /\
  0 <= 1 < Z.of_nat (length (ShadowMapping.scenes (Samples.shadow_state true false false 1))) /\
  exists stB',
    Bloom.buildCommandBuffers (okDevice Bloom.handles) (Samples.bloom_state true false)
      = Ok stB' /\
    forall (i : nat) cmds, drawCmdBuffers (Bloom.base stB') !! i = Some cmds ->
      let setup :=
        passes (Bloom.recordCommands
                  (Bloom.with_bloom Bloom.bloom_initially
                     (Samples.bloom_state true false)) i) in
      pass_ids (passes cmds) `sublist_of` pass_ids setup /\
      frame_draws (passes cmds) `sublist_of` frame_draws setup /\
      NoDup (pass_ids setup) /\ NoDup (frame_draws setup).
Proof.
  assert (HB : device_ok (okDevice Bloom.handles)) by (repeat split; reflexivity).
  assert (HS : device_ok (okDevice ShadowMapping.handles)) by (repeat split; reflexivity).
  assert (Hi : 0 <= 1 < Z.of_nat (length (ShadowMapping.scenes
                 (Samples.shadow_state true false false 1)))) by (simpl; lia).
  split; [exact HB|]. split; [exact HS|]. split; [exact Hi|].
  exact (proj1
    (pass_order_is_static (F := Samples.rational_floats)
       (okDevice Bloom.handles) (Samples.bloom_state true false) true
       (okDevice ShadowMapping.handles) (Samples.shadow_state true false false 1)
       (Samples.a_model 20) 0 HB HS Hi)).
Defined.

(** C9. In the bloom, shadow-mapping, PBR and screenshot examples, render()
    called while prepared is false returns at once: nothing is submitted, no
    uniform buffer is written and the whole state of the example is left as
    it was, whatever prepareFrame, submitFrame and the device would do. *)
Theorem render_before_prepare_is_a_noop {F : FloatOps}
    (pfB sfB : ExampleBase Bloom.handles -> Result (ExampleBase Bloom.handles))
    (devB : Device Bloom.handles) (stB : Bloom.State)
    (pfS sfS : ExampleBase ShadowMapping.handles -> Result (ExampleBase ShadowMapping.handles))
    (devS : Device ShadowMapping.handles) (stS : ShadowMapping.State)
    (pfP sfP : ExampleBase PbrBasic.handles -> Result (ExampleBase PbrBasic.handles))
    (devP : Device PbrBasic.handles) (stP : PbrBasic.State)
    (pfC sfC : ExampleBase Screenshot.handles -> Result (ExampleBase Screenshot.handles))
    (devC : Device Screenshot.handles) (stC : Screenshot.State) :
  prepared (Bloom.base stB) = false ->
  prepared (ShadowMapping.base stS) = false ->
  prepared (PbrBasic.base stP) = false ->
  prepared (Screenshot.base stC) = false ->
  Bloom.render pfB sfB devB stB = Ok stB /\
  ShadowMapping.render pfS sfS devS stS = Ok stS /\
  PbrBasic.render pfP sfP devP stP = Ok stP /\
  Screenshot.render pfC sfC devC stC = Ok stC.
Proof.
  intros HB HS HP HC.
  unfold Bloom.render, ShadowMapping.render, PbrBasic.render, Screenshot.render.
  by rewrite HB, HS, HP, HC.
Qed.

Lemma render_before_prepare_is_a_noop_witness :
  prepared (Bloom.base (Samples.bloom_state false true)) = false /\
  prepared (ShadowMapping.base (Samples.shadow_state false true true 0)) = false /\
  prepared (PbrBasic.base (Samples.pbr_state false 0 0)) = false /\
  prepared (Screenshot.base (Samples.screenshot_state false)) = false /\
  Bloom.render Samples.next_frame Samples.next_frame (okDevice Bloom.handles)
    (Samples.bloom_state false true) = Ok (Samples.bloom_state false true) /\
  ShadowMapping.render Samples.next_frame Samples.next_frame
    (okDevice ShadowMapping.handles) (Samples.shadow_state false true true 0)
    = Ok (Samples.shadow_state false true true 0) /\
  PbrBasic.render Samples.next_frame Samples.next_frame (okDevice PbrBasic.handles)
    (Samples.pbr_state false 0 0) = Ok (Samples.pbr_state false 0 0) /\
  Screenshot.render Samples.next_frame Samples.next_frame (okDevice Screenshot.handles)
    (Samples.screenshot_state false) = Ok (Samples.screenshot_state false).
Proof.
  split; [reflexivity|]. split; [reflexivity|]. split; [reflexivity|].
  split; [reflexivity|].
  exact (render_before_prepare_is_a_noop (F := Samples.rational_floats)
           Samples.next_frame Samples.next_frame (okDevice Bloom.handles)
           (Samples.bloom_state false true)
           Samples.next_frame Samples.next_frame (okDevice ShadowMapping.handles)
           (Samples.shadow_state false true true 0)
           Samples.next_frame Samples.next_frame (okDevice PbrBasic.handles)
           (Samples.pbr_state false 0 0)
           Samples.next_frame Samples.next_frame (okDevice Screenshot.handles)
           (Samples.screenshot_state false)
           eq_refl eq_refl eq_refl eq_refl).
Defined.

(** ** Registration of reads *)

Lemma Bloom_setup_outcome (dev : Device Bloom.handles) (l : VkImageLayout) :
  Bloom.setupDescriptorSet dev l = Bloom.setupDescriptorSet (okDevice Bloom.handles) l \/
  exists r, r <> VK_SUCCESS /\ Bloom.setupDescriptorSet dev l = Err (DeviceError r).
Proof.
  unfold Bloom.setupDescriptorSet, VK_CHECK_RESULT. simpl.
  repeat match goal with
         | |- context [ (?r =? VK_SUCCESS) ] =>
             destruct (Z.eqb_spec r VK_SUCCESS); simpl; [|by right; eauto]
         end.
  by left.
Qed.

Lemma Shadow_setup_outcome (dev : Device ShadowMapping.handles) :
  ShadowMapping.setupDescriptorSets dev
  = ShadowMapping.setupDescriptorSets (okDevice ShadowMapping.handles) \/
  exists r, r <> VK_SUCCESS /\
    ShadowMapping.setupDescriptorSets dev = Err (DeviceError r).
Proof.
  unfold ShadowMapping.setupDescriptorSets, VK_CHECK_RESULT. simpl.
  repeat match goal with
         | |- context [ (?r =? VK_SUCCESS) ] =>
             destruct (Z.eqb_spec r VK_SUCCESS); simpl; [|by right; eauto]
         end.
  by left.
Qed.



(** ** Final layouts of the consumed render targets *)

(** C7, as stated, fails on the code: the depth target of the shadow-mapping
    example, which the scene pass and the debug quad sample, is left in
    depth-stencil-read-only, not in shader-read-only. *)
Lemma shadow_map_does_not_end_shader_read_only :
  ~ every_consumed_target_ends_shader_read_only.
Proof.
  intros (_ & Hshadow & _).
  specialize (Hshadow
    (ShadowMapping.offscreenPass_depth : hImage ShadowMapping.handles,
     Some VK_IMAGE_LAYOUT_DEPTH_STENCIL_READ_ONLY_OPTIMAL,
     VK_IMAGE_LAYOUT_DEPTH_STENCIL_READ_ONLY_OPTIMAL)).
  assert (Hin :
    (ShadowMapping.offscreenPass_depth : hImage ShadowMapping.handles,
     Some VK_IMAGE_LAYOUT_DEPTH_STENCIL_READ_ONLY_OPTIMAL,
     VK_IMAGE_LAYOUT_DEPTH_STENCIL_READ_ONLY_OPTIMAL) ∈ Shadow_cross_pass_layouts).
  { vm_compute. left. }
  specialize (Hshadow Hin). discriminate Hshadow.
Qed.

(** C7, amended.  Within each example every render target consumed by a
    later pass is left by its writing render pass in one read-only layout
    that allows sampling: shader-read-only for the two colour targets of the
    bloom example and, as requested by prepare(), for the depth target of the
    offscreen shadow-mapping example; depth-stencil-read-only for the depth
    target of the shadow-mapping example, which both the scene pass and the
    debug quad sample.  In the bloom and shadow-mapping examples each sampling
    descriptor declares the layout the target is left in. *)
Theorem consumed_targets_end_in_one_read_only_layout (fbDepthFormat : VkFormat) :
  Bloom_cross_pass_layouts fbDepthFormat
  = [ (Bloom.framebuffers_color 0 : hImage Bloom.handles,
       Some VK_IMAGE_LAYOUT_SHADER_READ_ONLY_OPTIMAL,
       VK_IMAGE_LAYOUT_SHADER_READ_ONLY_OPTIMAL);
      (Bloom.framebuffers_color 1 : hImage Bloom.handles,
       Some VK_IMAGE_LAYOUT_SHADER_READ_ONLY_OPTIMAL,
       VK_IMAGE_LAYOUT_SHADER_READ_ONLY_OPTIMAL) ] /\
  Shadow_cross_pass_layouts
  = [ (ShadowMapping.offscreenPass_depth : hImage ShadowMapping.handles,
       Some VK_IMAGE_LAYOUT_DEPTH_STENCIL_READ_ONLY_OPTIMAL,
       VK_IMAGE_LAYOUT_DEPTH_STENCIL_READ_ONLY_OPTIMAL);
      (ShadowMapping.offscreenPass_depth : hImage ShadowMapping.handles,
       Some VK_IMAGE_LAYOUT_DEPTH_STENCIL_READ_ONLY_OPTIMAL,
       VK_IMAGE_LAYOUT_DEPTH_STENCIL_READ_ONLY_OPTIMAL) ] /\
  OffscreenShadowMapping.depthFinalLayout OffscreenShadowMapping.prepare_offscreen
  = VK_IMAGE_LAYOUT_SHADER_READ_ONLY_OPTIMAL.
Proof. by repeat split. Qed.
